(** * arsenal-ctp-driver: the CTP market-data publisher and execution engine

    A shallow embedding of [ctpUtil.py], [ctpOrder.py], [ctpDataPublisher.py]
    and [ctpExecutionEngine.py], followed by the properties established
    about them.

    Conventions of the embedding:
    - Python [str] is [string]; identifiers are ASCII, so [str.upper] and
      [str.lower] act on the letters a-z / A-Z only.
    - Python [int] (and the prices, which the code only adds, subtracts and
      compares) is [Z].
    - [dict] is [gmap], [set] is [gset]; [None] is [None] of [option].
    - A method that can raise returns a [result]; a method that mutates
      [self] or calls into a collaborator ([logging], [ctpmd], [ctptrader],
      a subscriber's [onData]) runs in the state-and-error monad [M], whose
      state holds the object and the chronological trace of those calls.
      State changes made before an exception is raised persist, as in
      Python. *)

From Stdlib Require Import ZArith Ascii String List Lia Permutation.
From stdpp Require Import base gmap sets list strings sorting pretty.

Open Scope string_scope.
Open Scope Z_scope.

(** ** Python values, exceptions and strings *)

Module Py.

(** The exceptions the modelled code can raise. [PyException] is the plain
    [Exception( msg )] of the publisher. *)
Inductive exn : Type :=
  | ValueError
  | IndexError
  | KeyError
  | PyException (msg : string).

Inductive result (A : Type) : Type :=
  | Return (a : A)
  | Raise (e : exn).
Arguments Return {A} a.
Arguments Raise {A} e.

Definition is_raise {A} (r : result A) : bool :=
  match r with Raise _ => true | Return _ => false end.

(** State-and-error monad: the state survives a raise. *)
Definition M (S A : Type) : Type := S -> result A * S.

Definition ret {S A} (a : A) : M S A := fun s => (Return a, s).

Definition raise {S A} (e : exn) : M S A := fun s => (Raise e, s).

Definition bind {S A B} (m : M S A) (k : A -> M S B) : M S B :=
  fun s =>
    match m s with
    | (Return a, s') => k a s'
    | (Raise e, s') => (Raise e, s')
    end.

Definition get {S} : M S S := fun s => (Return s, s).

Definition modify {S} (f : S -> S) : M S unit := fun s => (Return tt, f s).

Definition lift {S A} (r : result A) : M S A := fun s => (r, s).

(** [for x in xs: body x] *)
Fixpoint for_each {S A} (xs : list A) (body : A -> M S unit) : M S unit :=
  match xs with
  | [] => ret tt
  | x :: xs' => bind (body x) (fun _ => for_each xs' body)
  end.

(** [s.split( sep )] for a one-character separator: every occurrence
    separates, so the result is never empty and [''.split( ',' ) == ['']]. *)
Fixpoint split (sep : ascii) (s : string) : list string :=
  match s with
  | EmptyString => [EmptyString]
  | String c s' =>
      if Ascii.eqb c sep then EmptyString :: split sep s'
      else match split sep s' with
           | [] => [String c EmptyString]
           | w :: ws => String c w :: ws
           end
  end.

Definition is_lower (c : ascii) : bool :=
  let n := nat_of_ascii c in (Nat.leb 97 n && Nat.leb n 122)%bool.

Definition is_upper (c : ascii) : bool :=
  let n := nat_of_ascii c in (Nat.leb 65 n && Nat.leb n 90)%bool.

Definition upper_char (c : ascii) : ascii :=
  if is_lower c then ascii_of_nat (nat_of_ascii c - 32) else c.

Definition lower_char (c : ascii) : ascii :=
  if is_upper c then ascii_of_nat (nat_of_ascii c + 32) else c.

Fixpoint map_chars (f : ascii -> ascii) (s : string) : string :=
  match s with
  | EmptyString => EmptyString
  | String c s' => String (f c) (map_chars f s')
  end.

(** [s.upper()] and [s.lower()] *)
Definition upper (s : string) : string := map_chars upper_char s.
Definition lower (s : string) : string := map_chars lower_char s.

(** [s.startswith( p )] *)
Definition startswith (s p : string) : bool := String.prefix p s.

(** [c in s] for a character *)
Fixpoint has_char (c : ascii) (s : string) : bool :=
  match s with
  | EmptyString => false
  | String d s' => (Ascii.eqb d c || has_char c s')%bool
  end.

(** No character of [s] satisfies [p]. *)
Fixpoint none_char (p : ascii -> bool) (s : string) : bool :=
  match s with
  | EmptyString => true
  | String c s' => (negb (p c) && none_char p s')%bool
  end.

End Py.

Import Py.

Notation "'let!' x ':=' m 'in' k" := (bind m (fun x => k))
  (at level 10, x name, m at level 100, k at level 200, only parsing).
Notation "'do!' m 'in' k" := (bind m (fun _ => k))
  (at level 10, m at level 100, k at level 200, only parsing).

(** ** ctpOrder.py *)

Module ctpOrder.

(** Offset flags *)
Definition OFFSET_OPEN : Z := 48.
Definition OFFSET_CLOSE : Z := 49.
Definition OFFSET_FORCE_CLOSE : Z := 50.
Definition OFFSET_CLOSE_TODAY : Z := 51.
Definition OFFSET_CLOSE_YSTDY : Z := 52.
Definition OFFSET_FORCE_OFF : Z := 53.
Definition OFFSET_LOCAL_FORCE_CLOSE : Z := 54.

(** Side flags *)
Definition DIRECTION_BUY : Z := 48.
Definition DIRECTION_SELL : Z := 49.

(** Price types *)
Definition PRICE_ANY_PRICE : Z := 49.
Definition PRICE_LIMIT_PRICE : Z := 50.
Definition PRICE_BEST_PRICE : Z := 51.
Definition PRICE_LAST_PRICE : Z := 52.
Definition PRICE_LAST_PRICE_PLUS_ONE_TICK : Z := 53.
Definition PRICE_LAST_PRICE_PLUS_TWO_TICK : Z := 54.
Definition PRICE_LAST_PRICE_PLUS_THREE_TICK : Z := 55.
Definition PRICE_ASK_PRICE1 : Z := 56.
Definition PRICE_ASK_PRICE1_PLUS_ONE_TICK : Z := 57.
Definition PRICE_ASK_PRICE1_PLUS_TWO_TICK : Z := 65.
Definition PRICE_ASK_PRICE1_PLUS_THREE_TICK : Z := 66.
Definition PRICE_BID_PRICE1 : Z := 67.
Definition PRICE_BID_PRICE1_PLUS_ONE_TICK : Z := 68.
Definition PRICE_BID_PRICE1_PLUS_TWO_TICK : Z := 69.
Definition PRICE_BID_PRICE1_PLUS_THREE_TICK : Z := 70.

(** [CTPOrder( instId, exch, side, volume, priceType, price, offsetFlag )] *)
Record CTPOrder : Type := mkCTPOrder {
  instId : string;
  exch : string;
  side : Z;
  volume : Z;
  priceType : Z;
  price : Z;
  offsetFlag : Z
}.

(** Order status codes *)
Definition ORDER_SUBMITTED : Z := 48.
Definition ORDER_CANCEL_SUBMITTED : Z := 49.
Definition ORDER_MODIFY_SUBMITTED : Z := 50.
Definition ORDER_ACCEPTED : Z := 51.
Definition ORDER_REJECTED : Z := 52.
Definition ORDER_CANCEL_REJECTED : Z := 53.
Definition ORDER_MODIFY_REJECTED : Z := 54.

(** [CTPOrderStatus( sessionId, status )] *)
Record CTPOrderStatus : Type := mkCTPOrderStatus {
  sessionId : Z;
  status : Z
}.

(** [CTPOrderId( instId, exchange, orderId )] *)
Record CTPOrderId : Type := mkCTPOrderId {
  oid_instId : string;
  oid_exchange : string;
  oid_orderId : Z
}.

End ctpOrder.

(** ** ctpUtil.py *)

Module ctpUtil.

(** [getCtpInstId( secId )]: the two-target unpacking of
    [secId.split( '.' )] raises [ValueError] unless there are exactly two
    fields. *)
Definition getCtpInstId (secId : string) : result string :=
  match split "." secId with
  | [instId; exch] =>
      if (startswith exch "XZCE" || startswith exch "CCFX")%bool
      then Return (upper instId)
      else Return (lower instId)
  | _ => Raise ValueError
  end.

(** [s[ 1 ]] on a string *)
Definition char_at_1 (s : string) : string :=
  match s with
  | String _ (String c _) => String c EmptyString
  | _ => EmptyString
  end.

(** [getCtpExch( secId )]: [secId.split( '.' )[ 1 ]] raises [IndexError]
    when there is no dot. *)
Definition getCtpExch (secId : string) : result string :=
  match split "." secId with
  | _ :: secIdCmp :: _ =>
      Return (if Nat.ltb 1 (String.length secIdCmp)
              then char_at_1 secIdCmp else EmptyString)
  | _ => Raise IndexError
  end.

(** The bullet order handed to the converter ([execution.order.Order]).
    The code reads the enumeration values off the order object itself
    ([order.BUY], [order.MARKET_ORDER], [order.CLOSE], [order.CLOSE_TODAY]),
    so they are fields here. *)
Record Order : Type := mkOrder {
  secId : string;
  side : Z;
  volume : Z;
  price : Z;
  priceType : Z;
  offset : Z;
  BUY : Z;
  MARKET_ORDER : Z;
  CLOSE : Z;
  CLOSE_TODAY : Z
}.

(** The literals of the forced-limit-price line of [convertToCtpOrder]. *)
Definition K : Z := 100.
Definition minimumPrice : Z := 1.

Definition convertToCtpOrder (order : Order) : result ctpOrder.CTPOrder :=
  match getCtpInstId (secId order) with
  | Raise e => Raise e
  | Return instId =>
  match getCtpExch (secId order) with
  | Raise e => Raise e
  | Return exch =>
      let side := if side order =? BUY order
                  then ctpOrder.DIRECTION_BUY else ctpOrder.DIRECTION_SELL in
      let volume := volume order in
      let price := price order in
      let price :=
        if priceType order =? MARKET_ORDER order
        then (if side =? ctpOrder.DIRECTION_BUY
              then price + K else Z.max minimumPrice (price - K))
        else price in
      let offset :=
        if offset order =? CLOSE order then ctpOrder.OFFSET_CLOSE
        else if offset order =? CLOSE_TODAY order
             then ctpOrder.OFFSET_CLOSE_TODAY
             else ctpOrder.OFFSET_OPEN in
      let priceType := ctpOrder.PRICE_LIMIT_PRICE in
      Return (ctpOrder.mkCTPOrder instId exch side volume priceType price
                offset)
  end end.

End ctpUtil.

(** ** ctpDataPublisher.py *)

Module ctpDataPublisher.

(** A subscriber object ([datafeed.subscriber.Subscriber]): its identity as
    a Python object, and what its two query methods return. The topic and
    field lists are fixed for the lifetime of the object.
    [getSubscribedDataFields] is [None] when the subscriber has no field
    filter. *)
Record Subscriber : Type := mkSubscriber {
  objId : positive;
  getSubscribedTopics : list string;
  getSubscribedDataFields : option (list string)
}.

#[global] Instance Subscriber_eq_dec : EqDecision Subscriber.
Proof. solve_decision. Defined.

#[global] Instance Subscriber_countable : Countable Subscriber.
Proof.
  refine (inj_countable'
            (fun s => (objId s, getSubscribedTopics s,
                       getSubscribedDataFields s))
            (fun t => mkSubscriber t.1.1 t.1.2 t.2) _).
  by intros [].
Defined.

(** A Python value that may be tested for membership in one of the
    reverse-index sets: an integer, or a subscriber object. *)
Inductive pyval : Type :=
  | PyInt (n : Z)
  | PyObj (s : Subscriber).

(** [v in X] for a set [X] of subscriber objects: an [int] is equal to no
    subscriber object. *)
Definition py_in (v : pyval) (X : gset Subscriber) : bool :=
  match v with
  | PyInt _ => false
  | PyObj s => bool_decide (s ∈ X)
  end.

(** Every topic of every listed subscriber has a native identifier. *)
Definition topics_well_formed (items : list (Z * Subscriber)) : Prop :=
  forall i s t, (i, s) ∈ items -> t ∈ getSubscribedTopics s ->
    is_raise (ctpUtil.getCtpInstId t) = false.

Section Publisher.

(** [datetime.datetime] and [float] values, and the two library parsers the
    receive loop calls: [dt.datetime.strptime( s, '%Y%m%d %H:%M:%S' )] and
    [float( s )], [None] standing for their [ValueError]. *)
Context {datetime price : Type}.
Context (strptime : string -> option datetime).
Context (py_float : string -> option price).

(** One cell of the list [data] of the receive loop. *)
Inductive cell : Type :=
  | CStr (s : string)
  | CDate (d : datetime)
  | CFloat (x : price).

(** A [pandas.DataFrame] indexed by [secId], with columns [tradeDate] and
    [price]: one row per index entry. *)
Definition DataFrame : Type := list (string * (datetime * price)).

(** [data.index] *)
Definition index (data : DataFrame) : list string := data.*1.

(** Calls into collaborators, in the order they are made. *)
Inductive Event : Type :=
  | LogDebugAdd (sid : Z) (topic : string)
  | LogDebugRemove (sid : Z) (topic : string)
  | LogInfoSubscribe (topics : list string) (fields : option (list string))
  | LogInfo (msg : string)
  | LogWarning (raw : string)
  | CtpmdConnect (addr : string)
  | Sleep (seconds : Z)
  | CtpmdSubscribeMarketData (topics : list string)
  | SockSubscribe (topic : string)
  | SockConnect (addr : string)
  | OnData (s : Subscriber) (data : DataFrame).

Record CTPDataPublisher : Type := mkPublisher {
  config : gmap string string;
  subscribers : gmap Z Subscriber;
  secIds : gmap string string;
  topicsToSubscribers : gmap string (gset Subscriber);
  nextId : Z
}.

Record World : Type := mkWorld {
  self : CTPDataPublisher;
  trace : list Event
}.

Definition set_subscribers (f : gmap Z Subscriber -> gmap Z Subscriber)
    (p : CTPDataPublisher) : CTPDataPublisher :=
  mkPublisher (config p) (f (subscribers p)) (secIds p)
    (topicsToSubscribers p) (nextId p).

Definition set_secIds (f : gmap string string -> gmap string string)
    (p : CTPDataPublisher) : CTPDataPublisher :=
  mkPublisher (config p) (subscribers p) (f (secIds p))
    (topicsToSubscribers p) (nextId p).

Definition set_topicsToSubscribers
    (f : gmap string (gset Subscriber) -> gmap string (gset Subscriber))
    (p : CTPDataPublisher) : CTPDataPublisher :=
  mkPublisher (config p) (subscribers p) (secIds p)
    (f (topicsToSubscribers p)) (nextId p).

Definition set_nextId (f : Z -> Z) (p : CTPDataPublisher)
    : CTPDataPublisher :=
  mkPublisher (config p) (subscribers p) (secIds p)
    (topicsToSubscribers p) (f (nextId p)).

Definition update (f : CTPDataPublisher -> CTPDataPublisher)
    : M World unit :=
  modify (fun w => mkWorld (f (self w)) (trace w)).

Definition emit (ev : Event) : M World unit :=
  modify (fun w => mkWorld (self w) (trace w ++ [ev])).

Definition read {A} (f : CTPDataPublisher -> A) : M World A :=
  fun w => (Return (f (self w)), w).

(** The publisher right after [__init__] with the given configuration. *)
Definition init (cfg : gmap string string) : CTPDataPublisher :=
  mkPublisher cfg ∅ ∅ ∅ 1.

(** [self.topicsToSubscribers.get( topic, set() )]: the reverse-index
    lookup, as [notifyAll] performs it. *)
Definition subscribersFor (p : CTPDataPublisher) (topic : string)
    : gset Subscriber :=
  default ∅ (topicsToSubscribers p !! topic).

(** One turn of the topic loop of [addSubscriber]: create the topic's set
    if it is absent, log, then add the subscriber object to the set. *)
Definition add_topic (subId : Z) (subscriber : Subscriber) (topic : string)
    : M World unit :=
  do! update (set_topicsToSubscribers (fun idx =>
        if decide (is_Some (idx !! topic)) then idx
        else <[topic := ∅]> idx)) in
  do! emit (LogDebugAdd subId topic) in
  update (set_topicsToSubscribers (fun idx =>
    <[topic := default ∅ (idx !! topic) ∪ {[subscriber]}]> idx)).

(** [addSubscriber( self, subscriber )] *)
Definition addSubscriber (subscriber : option Subscriber)
    : M World (option Z) :=
  match subscriber with
  | Some s =>
      let! subId := read nextId in
      do! update (set_nextId (fun n => n + 1)) in
      do! update (set_subscribers <[subId := s]>) in
      do! for_each (getSubscribedTopics s) (add_topic subId s) in
      ret (Some subId)
  | None => ret None
  end.

(** [self.topicsToSubscribers[ topic ] -= { subscriber, }]: [KeyError] when
    the topic has no entry. *)
Definition discard_from_topic (topic : string) (s : Subscriber)
    : M World unit :=
  let! idx := read topicsToSubscribers in
  match idx !! topic with
  | Some X => update (set_topicsToSubscribers <[topic := X ∖ {[s]}]>)
  | None => raise KeyError
  end.

(** [removeSubscriber( self, subscriberId )] *)
Definition removeSubscriber (subscriberId : Z) : M World Subscriber :=
  let! subs := read subscribers in
  match subs !! subscriberId with
  | None => raise (PyException "Requested subscriber does not exist.")
  | Some subscriber =>
      do! update (set_subscribers (delete subscriberId)) in
      do! for_each (getSubscribedTopics subscriber) (fun topic =>
        do! emit (LogDebugRemove subscriberId topic) in
        discard_from_topic topic subscriber) in
      ret subscriber
  end.

(** [notify( self, subscriberId, data )] *)
Definition notify (subscriberId : Z) (data : DataFrame) : M World unit :=
  let! subs := read subscribers in
  match subs !! subscriberId with
  | Some s => emit (OnData s data)
  | None =>
      raise (PyException ("Subscriber with ID " +:+ pretty subscriberId
                          +:+ " does not exist."))
  end.

(** [notifyAll( self, data )] *)
Definition notifyAll (data : DataFrame) : M World unit :=
  let! idx := read topicsToSubscribers in
  let secIds : gset string := list_to_set (index data) in
  let subscribers : gset Subscriber :=
    foldl (fun acc secId => acc ∪ default ∅ (idx !! secId)) ∅
      (elements secIds) in
  if decide (0 < size subscribers)%nat
  then for_each (elements subscribers) (fun s => emit (OnData s data))
  else ret tt.

(** The body of the [while True] of [receiveDatafeed], run on the messages
    that [sock.recv()] delivers, in order. Once they are exhausted the loop
    is blocked in [recv], which is the [Return tt] outcome; the loop never
    leaves otherwise than by an exception. *)
Fixpoint receive_loop (messages : list string) : M World unit :=
  match messages with
  | [] => ret tt
  | raw :: rest =>
      let cols := ["secId"; "tradeDate"; "price"] in
      match split "," raw with
      | [instId; tradeDatetime; price] =>
          let! ids := read secIds in
          match strptime tradeDatetime with
          | None => raise ValueError
          | Some d =>
          match py_float price with
          | None => raise ValueError
          | Some x =>
              let data := [CStr (default instId (ids !! instId));
                           CDate d; CFloat x] in
              do! (if Nat.eqb (length data) (length cols)
                   then notifyAll [(default instId (ids !! instId), (d, x))]
                   else emit (LogWarning raw)) in
              receive_loop rest
          end end
      | _ => raise ValueError
      end
  end.

(** [receiveDatafeed( self, topics )] *)
Definition receiveDatafeed (topics : list string) (messages : list string)
    : M World unit :=
  do! for_each topics (fun topic => emit (SockSubscribe topic)) in
  let! cfg := read config in
  match cfg !! "MQ_SUB_ADDR" with
  | None => raise KeyError
  | Some addr => do! emit (SockConnect addr) in receive_loop messages
  end.

(** [dict( ( ctpUtil.getCtpInstId( tt ), tt ) for tt in t )]: the pairs are
    produced left to right, the first malformed topic raises, and a later
    pair replaces an earlier one with the same key. *)
Fixpoint ctpTopics_of (t : list string) (acc : gmap string string)
    : result (gmap string string) :=
  match t with
  | [] => Return acc
  | tt_ :: t' =>
      match ctpUtil.getCtpInstId tt_ with
      | Raise e => Raise e
      | Return k => ctpTopics_of t' (<[k := tt_]> acc)
      end
  end.

(** The summarising loop of [connect] over the items of
    [self.subscribers], in the order the dictionary yields them; the local
    [fields] is threaded through and returned ([None] is ALL). *)
Fixpoint connect_summarise (items : list (Z * Subscriber))
    (fields : option (gset string)) : M World (option (gset string)) :=
  match items with
  | [] => ret fields
  | (_, s) :: rest =>
      let t := getSubscribedTopics s in
      let f := getSubscribedDataFields s in
      let! ctpTopics := lift (ctpTopics_of t ∅) in
      do! update (set_secIds (fun ids => ctpTopics ∪ ids)) in
      connect_summarise rest
        (match f, fields with
         | Some f, Some fields => Some (fields ∪ list_to_set f)
         | _, _ => None
         end)
  end.

(** [connect( self )], up to the creation of the receiver thread; returns
    the topics the receiver is created with. *)
Definition connect : M World (list string) :=
  let! subs := read subscribers in
  let! fields := connect_summarise (map_to_list subs) (Some ∅) in
  let! ids := read secIds in
  let topics := (map_to_list ids).*1 in
  do! emit (LogInfoSubscribe topics (elements <$> fields)) in
  let! cfg := read config in
  match cfg !! "MQ_PUB_ADDR" with
  | None => raise KeyError
  | Some addr =>
      do! emit (CtpmdConnect addr) in
      do! emit (LogInfo "Waiting connection to establish...") in
      do! emit (Sleep 1) in
      do! emit (LogInfo "Setting-up receiver...") in
      do! emit (CtpmdSubscribeMarketData topics) in
      ret topics
  end.

(** One call of [onData]. *)
Definition delivery (c : Subscriber * DataFrame) : Event := OnData c.1 c.2.

(** The calls a client makes on a publisher. A client that catches the
    exception of a failed call goes on with the publisher as that call left
    it. *)
Inductive Call : Type :=
  | CallAddSubscriber (subscriber : option Subscriber)
  | CallRemoveSubscriber (subscriberId : Z)
  | CallNotify (subscriberId : Z) (data : DataFrame)
  | CallNotifyAll (data : DataFrame)
  | CallConnect
  | CallReceiveDatafeed (topics : list string) (messages : list string).

Definition run_call (c : Call) (w : World) : World :=
  match c with
  | CallAddSubscriber subscriber => (addSubscriber subscriber w).2
  | CallRemoveSubscriber subscriberId => (removeSubscriber subscriberId w).2
  | CallNotify subscriberId data => (notify subscriberId data w).2
  | CallNotifyAll data => (notifyAll data w).2
  | CallConnect => (connect w).2
  | CallReceiveDatafeed topics messages =>
      (receiveDatafeed topics messages w).2
  end.

Definition run_calls (cs : list Call) (w : World) : World :=
  foldl (fun w c => run_call c w) w cs.

(** Consistency of the registry: the next identifier is at least 1 and
    identifiers in use lie between 1 and the next identifier; every topic of a registered subscriber has an entry
    in the reverse index; the reverse index lists a subscriber object only
    under its own topics, and only if it is registered. *)
Definition registry_ok (p : CTPDataPublisher) : Prop :=
  1 <= nextId p /\
  (forall i s, subscribers p !! i = Some s -> 1 <= i < nextId p) /\
  (forall i s t, subscribers p !! i = Some s ->
     t ∈ getSubscribedTopics s -> is_Some (topicsToSubscribers p !! t)) /\
  (forall t s, s ∈ subscribersFor p t -> t ∈ getSubscribedTopics s) /\
  (forall t s, s ∈ subscribersFor p t ->
     exists i, subscribers p !! i = Some s).

End Publisher.

End ctpDataPublisher.

(** ** ctpExecutionEngine.py *)

Module ctpExecutionEngine.

(** A user-supplied callable registered with [setCallbacks]. *)
Definition Callback : Type := positive.

(** The arguments of [_onOrderReturn]. *)
Record OrderReturn : Type := mkOrderReturn {
  orderRefId : string;
  notifySeq : Z;
  orderStatus : Z;
  volumeTraded : Z;
  volumeTotal : Z;
  seqNo : Z
}.

(** The arguments of [_onTradeReturn]. *)
Record TradeReturn : Type := mkTradeReturn {
  tr_orderRefId : string;
  tr_orderSysId : string;
  tr_tradeId : string;
  tr_price : Z;
  tr_volume : Z;
  tr_tradeDate : string;
  tr_tradeTime : string;
  tr_orderLocalId : string;
  tr_seqNo : Z
}.

(** Calls into collaborators, in the order they are made. *)
Inductive Event : Type :=
  | CtptraderConnect
  | CtptraderPlaceOrder (ctpOrderObj : ctpOrder.CTPOrder) (orderId : Z)
  | CtptraderCancelOrder (orderId : ctpOrder.CTPOrderId)
  | LogInfo (msg : string)
  | Print (orderId requestId : Z)
  | CallTradeReturn (f : Callback) (args : TradeReturn).

Record CTPExecutionEngine : Type := mkEngine {
  executedOrders : gmap Z ctpOrder.CTPOrderStatus;
  nextId : Z;
  onRspUserLogin : option Callback;
  onOrderSubmitted : option Callback;
  onOrderActionTaken : option Callback;
  onOrderReturn : option Callback;
  onTradeReturn : option Callback
}.

Record World : Type := mkWorld {
  self : CTPExecutionEngine;
  trace : list Event
}.

Definition update (f : CTPExecutionEngine -> CTPExecutionEngine)
    : M World unit :=
  modify (fun w => mkWorld (f (self w)) (trace w)).

Definition emit (ev : Event) : M World unit :=
  modify (fun w => mkWorld (self w) (trace w ++ [ev])).

Definition read {A} (f : CTPExecutionEngine -> A) : M World A :=
  fun w => (Return (f (self w)), w).

(** The engine right after [__init__]. *)
Definition init : CTPExecutionEngine :=
  mkEngine ∅ 1 None None None None None.

(** [setCallbacks( self, ... )] *)
Definition setCallbacks
    (onRspUserLogin onOrderSubmitted onOrderActionTaken onOrderReturn
       onTradeReturn : option Callback) : M World unit :=
  update (fun e =>
    mkEngine (executedOrders e) (nextId e) onRspUserLogin onOrderSubmitted
      onOrderActionTaken onOrderReturn onTradeReturn).

(** [connect( self )] *)
Definition connect : M World unit := emit CtptraderConnect.

(** [placeOrder( self, order, onOrderFilled=None )] *)
Definition placeOrder (order : ctpUtil.Order)
    : M World ctpOrder.CTPOrderId :=
  let! orderId := read nextId in
  do! update (fun e =>
        mkEngine (executedOrders e) (nextId e + 1) (onRspUserLogin e)
          (onOrderSubmitted e) (onOrderActionTaken e) (onOrderReturn e)
          (onTradeReturn e)) in
  let! ctpOrderObj := lift (ctpUtil.convertToCtpOrder order) in
  do! emit (CtptraderPlaceOrder ctpOrderObj orderId) in
  ret (ctpOrder.mkCTPOrderId (ctpUtil.secId order)
         (ctpOrder.exch ctpOrderObj) orderId).

(** [cancelOrder( self, orderId )] *)
Definition cancelOrder (orderId : ctpOrder.CTPOrderId) : M World unit :=
  emit (CtptraderCancelOrder orderId).

(** [queryStatus( self, orderId )]: the body is the docstring alone, so the
    call returns [None]. *)
Definition queryStatus (orderId : ctpOrder.CTPOrderId)
    : M World (option ctpOrder.CTPOrderStatus) :=
  ret None.

(** [updateOrder( self, orderId, newOrder )]: docstring alone. *)
Definition updateOrder (orderId : ctpOrder.CTPOrderId)
    (newOrder : ctpUtil.Order) : M World (option ctpOrder.CTPOrderStatus) :=
  ret None.

(** [_onRspUserLogin( self )] *)
Definition _onRspUserLogin : M World unit :=
  emit (LogInfo "CTP trader logged in.").

(** [_onOrderSubmitted( self, orderId, requestId )] *)
Definition _onOrderSubmitted (orderId requestId : Z) : M World unit :=
  emit (Print orderId requestId).

(** [_onOrderActionTaken( self, orderId, requestId )]: docstring alone. *)
Definition _onOrderActionTaken (orderId requestId : Z) : M World unit :=
  ret tt.

(** [_onOrderReturn( self, orderRefId, notifySeq, orderStatus, volumeTraded,
    volumeTotal, seqNo )]: docstring alone. *)
Definition _onOrderReturn (args : OrderReturn) : M World unit :=
  ret tt.

(** [_onTradeReturn( self, ... )] *)
Definition _onTradeReturn (args : TradeReturn) : M World unit :=
  let! f := read onTradeReturn in
  match f with
  | Some f => emit (CallTradeReturn f args)
  | None => ret tt
  end.

(** Delivery of a sequence of order-return callbacks, in arrival order. *)
Definition deliver (callbacks : list OrderReturn) : M World unit :=
  for_each callbacks _onOrderReturn.

(** The callbacks in increasing [seqNo] order. *)
Definition seqNo_le (a b : OrderReturn) : Prop := seqNo a <= seqNo b.

#[global] Instance seqNo_le_dec : RelDecision seqNo_le.
Proof. intros a b. unfold seqNo_le. apply _. Defined.

Definition by_seqNo (callbacks : list OrderReturn) : list OrderReturn :=
  merge_sort seqNo_le callbacks.

(** Some order record of the engine carries the status of the callback:
    the least that holds once the callback has been applied to an order. *)
Definition reflects (e : CTPExecutionEngine) (args : OrderReturn) : Prop :=
  exists k st,
    executedOrders e !! k = Some st /\
    ctpOrder.status st = orderStatus args.

(** The calls made on an engine, by its client and by the exchange
    transport (the five registered hooks). A client that catches the
    exception of a failed call goes on with the engine as that call left
    it. *)
Inductive Call : Type :=
  | CallSetCallbacks
      (onRspUserLogin onOrderSubmitted onOrderActionTaken onOrderReturn
         onTradeReturn : option Callback)
  | CallConnect
  | CallPlaceOrder (order : ctpUtil.Order)
  | CallCancelOrder (orderId : ctpOrder.CTPOrderId)
  | CallQueryStatus (orderId : ctpOrder.CTPOrderId)
  | CallUpdateOrder (orderId : ctpOrder.CTPOrderId) (newOrder : ctpUtil.Order)
  | HookRspUserLogin
  | HookOrderSubmitted (orderId requestId : Z)
  | HookOrderActionTaken (orderId requestId : Z)
  | HookOrderReturn (args : OrderReturn)
  | HookTradeReturn (args : TradeReturn).

Definition run_call (c : Call) (w : World) : World :=
  match c with
  | CallSetCallbacks a b c d e => (setCallbacks a b c d e w).2
  | CallConnect => (connect w).2
  | CallPlaceOrder order => (placeOrder order w).2
  | CallCancelOrder orderId => (cancelOrder orderId w).2
  | CallQueryStatus orderId => (queryStatus orderId w).2
  | CallUpdateOrder orderId newOrder => (updateOrder orderId newOrder w).2
  | HookRspUserLogin => (_onRspUserLogin w).2
  | HookOrderSubmitted orderId requestId =>
      (_onOrderSubmitted orderId requestId w).2
  | HookOrderActionTaken orderId requestId =>
      (_onOrderActionTaken orderId requestId w).2
  | HookOrderReturn args => (_onOrderReturn args w).2
  | HookTradeReturn args => (_onTradeReturn args w).2
  end.

Definition run_calls (cs : list Call) (w : World) : World :=
  foldl (fun w c => run_call c w) w cs.

(** The number of [placeOrder] calls of a sequence. *)
Fixpoint placed (cs : list Call) : Z :=
  match cs with
  | [] => 0
  | CallPlaceOrder _ :: cs' => 1 + placed cs'
  | _ :: cs' => placed cs'
  end.

(** The order identifiers handed to [ctptrader.placeOrder], in the order of
    the submissions. *)
Definition submitted_id (ev : Event) : option Z :=
  match ev with
  | CtptraderPlaceOrder _ orderId => Some orderId
  | _ => None
  end.

Definition submitted_ids (tr : list Event) : list Z := omap submitted_id tr.

End ctpExecutionEngine.

(** ** Scenarios: the concrete inputs of the examples below *)

Module Scenarios.

Import ctpUtil.

(** A MARKET BUY and a MARKET SELL at price 100, and a LIMIT BUY, for an
    order class with BUY = 1, SELL = 2, MARKET = 1, LIMIT = 2, CLOSE = 1 and
    CLOSE_TODAY = 2. *)
Definition market_buy_100 : Order :=
  mkOrder "rb1910.XSHG" 1 10 100 1 0 1 1 1 2.
Definition market_sell_100 : Order :=
  mkOrder "rb1910.XSHG" 2 10 100 1 0 1 1 1 2.
Definition limit_buy_100 : Order :=
  mkOrder "IF1909.CCFX" 1 10 100 2 0 1 1 1 2.

Import ctpDataPublisher.

(** Subscriber A wants one topic and has no field filter; B wants a disjoint
    topic and the price only; C has an empty filter. *)
Definition subscriberA : Subscriber :=
  mkSubscriber 1 ["rb1910.XSHG"] None.
Definition subscriberB : Subscriber :=
  mkSubscriber 2 ["IF1909.CCFX"] (Some ["price"]).
Definition subscriberC : Subscriber :=
  mkSubscriber 3 ["cu1909.XSHG"] (Some []).

(** A fresh publisher with an empty configuration, nothing traced yet. The
    [datetime] and [float] values are kept as their text. *)
Definition publisher0 : @World string string := mkWorld (init ∅) [].

(** A fresh engine, and two order-return callbacks for the order of
    reference 1, of sequence numbers 5 and 3. *)
Definition engine0 : ctpExecutionEngine.World :=
  ctpExecutionEngine.mkWorld ctpExecutionEngine.init [].
Definition return_seq5 : ctpExecutionEngine.OrderReturn :=
  ctpExecutionEngine.mkOrderReturn "1" 2 ctpOrder.ORDER_ACCEPTED 0 10 5.
Definition return_seq3 : ctpExecutionEngine.OrderReturn :=
  ctpExecutionEngine.mkOrderReturn "1" 1 ctpOrder.ORDER_SUBMITTED 0 10 3.

End Scenarios.

(** * Properties *)

(** ** Strings *)

Section StringFacts.

Lemma split_no_sep (sep : ascii) (s : string) :
  has_char sep s = false -> split sep s = [s].
Proof.
  induction s as [|c s IH]; simpl; [done|].
  destruct (Ascii.eqb c sep); simpl; [done|].
  intros Hs. by rewrite (IH Hs).
Qed.

Lemma split_at_sep (sep : ascii) (a b : string) :
  has_char sep a = false ->
  split sep (a +:+ String sep b) = a :: split sep b.
Proof.
  induction a as [|c a IH]; simpl.
  - intros _. by rewrite Ascii.eqb_refl.
  - destruct (Ascii.eqb c sep); simpl; [done|].
    intros Ha. by rewrite (IH Ha).
Qed.

Lemma split_two_fields (sep : ascii) (a b : string) :
  has_char sep a = false -> has_char sep b = false ->
  split sep (a +:+ String sep b) = [a; b].
Proof.
  intros Ha Hb. by rewrite (split_at_sep _ _ _ Ha), (split_no_sep _ _ Hb).
Qed.

Lemma upper_char_not_lower (c : ascii) : is_lower (upper_char c) = false.
Proof. by destruct c as [[] [] [] [] [] [] [] []]. Qed.

Lemma lower_char_not_upper (c : ascii) : is_upper (lower_char c) = false.
Proof. by destruct c as [[] [] [] [] [] [] [] []]. Qed.

Lemma upper_is_uppercase (s : string) : none_char is_lower (upper s) = true.
Proof.
  unfold upper. induction s as [|c s IH]; simpl; [done|].
  by rewrite upper_char_not_lower, IH.
Qed.

Lemma lower_is_lowercase (s : string) : none_char is_upper (lower s) = true.
Proof.
  unfold lower. induction s as [|c s IH]; simpl; [done|].
  by rewrite lower_char_not_upper, IH.
Qed.

End StringFacts.

(** ** The instrument identifier mapper and the order converter *)

Section Converter.

Import ctpUtil Scenarios.

(** C9. For a security identifier [SYMBOL.SUFFIX] with a single dot,
    [getCtpInstId] returns the symbol in upper case (no letter a-z left in
    it) when the suffix starts with XZCE or CCFX, and in lower case (no
    letter A-Z left in it) for every other suffix. *)
Theorem getCtpInstId_case_rule (symbol suffix : string) :
  has_char "." symbol = false ->
  has_char "." suffix = false ->
  exists inst,
    getCtpInstId (symbol +:+ "." +:+ suffix) = Return inst /\
    if (startswith suffix "XZCE" || startswith suffix "CCFX")%bool
    then inst = upper symbol /\ none_char is_lower inst = true
    else inst = lower symbol /\ none_char is_upper inst = true.
Proof.
  intros Hsym Hsuf. unfold getCtpInstId.
  change (symbol +:+ "." +:+ suffix) with (symbol +:+ String "." suffix).
  rewrite (split_two_fields "." symbol suffix Hsym Hsuf).
  destruct (startswith suffix "XZCE" || startswith suffix "CCFX")%bool.
  - exists (upper symbol). auto using upper_is_uppercase.
  - exists (lower symbol). auto using lower_is_lowercase.
Qed.

Lemma getCtpInstId_case_rule_witness :
  (exists inst, getCtpInstId "IF1909.CCFX" = Return inst /\
     inst = "IF1909" /\ none_char is_lower inst = true) /\
  (exists inst, getCtpInstId "cu1909.XSHG" = Return inst /\
     inst = "cu1909" /\ none_char is_upper inst = true) /\
  (exists inst, getCtpInstId "zc909.XZCE" = Return inst /\
     inst = "ZC909" /\ none_char is_lower inst = true).
Proof.
  split; [|split].
  - exact (getCtpInstId_case_rule "IF1909" "CCFX" eq_refl eq_refl).
  - exact (getCtpInstId_case_rule "cu1909" "XSHG" eq_refl eq_refl).
  - exact (getCtpInstId_case_rule "zc909" "XZCE" eq_refl eq_refl).
Defined.

Lemma getCtpExch_two_fields (secId instId exch : string) :
  split "." secId = [instId; exch] ->
  getCtpExch secId =
    Return (if Nat.ltb 1 (String.length exch)
            then char_at_1 exch else EmptyString).
Proof. intros H. unfold getCtpExch. by rewrite H. Qed.

Lemma getCtpInstId_two_fields (secId instId exch : string) :
  split "." secId = [instId; exch] ->
  exists inst, getCtpInstId secId = Return inst.
Proof.
  intros H. unfold getCtpInstId. rewrite H.
  destruct (_ || _)%bool; eauto.
Qed.

(** What [convertToCtpOrder] returns on an identifier with two fields. *)
Lemma convertToCtpOrder_two_fields (o : Order) (instId exch : string) :
  split "." (secId o) = [instId; exch] ->
  exists inst ex,
    convertToCtpOrder o =
      Return (ctpOrder.mkCTPOrder inst ex
                (if side o =? BUY o
                 then ctpOrder.DIRECTION_BUY else ctpOrder.DIRECTION_SELL)
                (volume o) ctpOrder.PRICE_LIMIT_PRICE
                (if priceType o =? MARKET_ORDER o
                 then (if side o =? BUY o
                       then price o + K
                       else Z.max minimumPrice (price o - K))
                 else price o)
                (if offset o =? CLOSE o then ctpOrder.OFFSET_CLOSE
                 else if offset o =? CLOSE_TODAY o
                      then ctpOrder.OFFSET_CLOSE_TODAY
                      else ctpOrder.OFFSET_OPEN)).
Proof.
  intros H. unfold convertToCtpOrder.
  destruct (getCtpInstId_two_fields _ _ _ H) as [inst ->].
  rewrite (getCtpExch_two_fields _ _ _ H).
  do 2 eexists. do 2 f_equal.
  by destruct (side o =? BUY o).
Qed.

(** C4. For an order of price type MARKET on a two-field identifier, the
    native order carries the limit price [p + K] when the side is BUY and
    [max( minimumPrice, p - K )] otherwise, with [K = 100] and
    [minimumPrice = 1]. *)
Theorem convertToCtpOrder_market_limit_price
    (o : Order) (instId exch : string) :
  split "." (secId o) = [instId; exch] ->
  priceType o = MARKET_ORDER o ->
  exists c,
    convertToCtpOrder o = Return c /\
    K = 100 /\ minimumPrice = 1 /\
    ctpOrder.price c =
      (if side o =? BUY o then price o + K
       else Z.max minimumPrice (price o - K)).
Proof.
  intros Hid Hmkt.
  destruct (convertToCtpOrder_two_fields o _ _ Hid) as (inst & ex & ->).
  eexists; split; [reflexivity|]. simpl.
  rewrite Hmkt, Z.eqb_refl. done.
Qed.

Lemma convertToCtpOrder_market_limit_price_witness :
  (exists c, convertToCtpOrder market_buy_100 = Return c /\
     K = 100 /\ minimumPrice = 1 /\ ctpOrder.price c = 200) /\
  (exists c, convertToCtpOrder market_sell_100 = Return c /\
     K = 100 /\ minimumPrice = 1 /\ ctpOrder.price c = 1).
Proof.
  split.
  - exact (convertToCtpOrder_market_limit_price market_buy_100
             "rb1910" "XSHG" eq_refl eq_refl).
  - exact (convertToCtpOrder_market_limit_price market_sell_100
             "rb1910" "XSHG" eq_refl eq_refl).
Defined.

(** C10. Whatever the requested price type, a native order produced by
    [convertToCtpOrder] carries [PRICE_LIMIT_PRICE]; and the conversion does
    produce one whenever the identifier has two fields. *)
Theorem convertToCtpOrder_always_limit_price (o : Order) :
  (forall c, convertToCtpOrder o = Return c ->
     ctpOrder.priceType c = ctpOrder.PRICE_LIMIT_PRICE) /\
  (forall instId exch, split "." (secId o) = [instId; exch] ->
     exists c, convertToCtpOrder o = Return c /\
       ctpOrder.priceType c = ctpOrder.PRICE_LIMIT_PRICE).
Proof.
  split.
  - unfold convertToCtpOrder. intros c.
    destruct (getCtpInstId (secId o)); [|done].
    destruct (getCtpExch (secId o)); [|done].
    by intros [= <-].
  - intros instId exch Hid.
    destruct (convertToCtpOrder_two_fields o _ _ Hid) as (inst & ex & ->).
    eauto.
Qed.

Lemma convertToCtpOrder_always_limit_price_witness :
  exists c, convertToCtpOrder limit_buy_100 = Return c /\
    ctpOrder.priceType c = 50 /\ ctpOrder.price c = 100.
Proof.
  destruct (proj2 (convertToCtpOrder_always_limit_price limit_buy_100)
              "IF1909" "CCFX" eq_refl) as (c & Hc & Hp).
  exists c. split; [exact Hc|]. split; [exact Hp|].
  injection Hc as <-. reflexivity.
Defined.

End Converter.

(** ** The subscription registry *)

Section Registry.

Import ctpDataPublisher.

Context {datetime price : Type}.

#[local] Abbreviation World := (@World datetime price).

Lemma add_topic_spec (subId : Z) (s : Subscriber) (topic : string)
    (w : World) :
  exists w',
    add_topic subId s topic w = (Return tt, w') /\
    config (self w') = config (self w) /\
    subscribers (self w') = subscribers (self w) /\
    secIds (self w') = secIds (self w) /\
    nextId (self w') = nextId (self w) /\
    forall t,
      subscribersFor (self w') t =
        if decide (t = topic) then subscribersFor (self w) t ∪ {[s]}
        else subscribersFor (self w) t.
Proof.
  eexists. split; [reflexivity|]. simpl. split_and!; try done.
  intros t. unfold subscribersFor. simpl.
  destruct (decide (t = topic)) as [->|Hne].
  - rewrite lookup_insert_eq. case_decide as Hs.
    + done.
    + rewrite lookup_insert_eq. simpl.
      apply eq_None_not_Some in Hs. by rewrite Hs.
  - rewrite lookup_insert_ne by done.
    case_decide; [done|]. by rewrite lookup_insert_ne.
Qed.

Lemma add_topics_spec (subId : Z) (s : Subscriber) (topics : list string) :
  forall w : World,
  exists w',
    for_each topics (add_topic subId s) w = (Return tt, w') /\
    config (self w') = config (self w) /\
    subscribers (self w') = subscribers (self w) /\
    secIds (self w') = secIds (self w) /\
    nextId (self w') = nextId (self w) /\
    forall t,
      subscribersFor (self w') t =
        if decide (t ∈ topics) then subscribersFor (self w) t ∪ {[s]}
        else subscribersFor (self w) t.
Proof.
  induction topics as [|topic topics IH]; intros w.
  - exists w. split_and!; done.
  - destruct (add_topic_spec subId s topic w)
      as (w1 & Hstep & Hc1 & Hs1 & Hi1 & Hn1 & Hidx1).
    destruct (IH w1) as (w' & Hrest & Hc & Hs & Hi & Hn & Hidx).
    exists w'. split.
    { simpl. unfold bind at 1. by rewrite Hstep. }
    split_and!; try congruence.
    intros t. rewrite Hidx, Hidx1.
    destruct (decide (t = topic)) as [->|Hne].
    + rewrite (decide_True (P := topic ∈ topic :: topics))
        by apply list_elem_of_here.
      case_decide; [|done].
      by rewrite <- (assoc_L (∪)), (idemp_L (∪)).
    + destruct (decide (t ∈ topics)) as [Hin|Hnin].
      * rewrite decide_True by (by apply list_elem_of_further). done.
      * rewrite decide_False; [done|].
        rewrite elem_of_cons. tauto.
Qed.

(** What [addSubscriber] does with a subscriber object. *)
Lemma addSubscriber_Some_spec (w : World) (s : Subscriber) :
  exists w',
    addSubscriber (Some s) w = (Return (Some (nextId (self w))), w') /\
    nextId (self w') = nextId (self w) + 1 /\
    subscribers (self w') !! nextId (self w) = Some s /\
    (forall t, t ∈ getSubscribedTopics s ->
       subscribersFor (self w') t = subscribersFor (self w) t ∪ {[s]} /\
       py_in (PyObj s) (subscribersFor (self w') t) = true) /\
    (forall t, t ∉ getSubscribedTopics s ->
       subscribersFor (self w') t = subscribersFor (self w) t) /\
    (forall t i, py_in (PyInt i) (subscribersFor (self w') t) = false).
Proof.
  set (i := nextId (self w)).
  set (w1 := mkWorld
               (set_subscribers <[i := s]>
                  (set_nextId (fun n => n + 1) (self w)))
               (trace w)).
  destruct (add_topics_spec i s (getSubscribedTopics s) w1)
    as (w' & Hloop & _ & Hs & _ & Hn & Hidx).
  exists w'. split_and!.
  - unfold addSubscriber, bind, read, update, modify. simpl.
    fold i. fold w1. by rewrite Hloop.
  - by rewrite Hn.
  - rewrite Hs. simpl. by rewrite lookup_insert_eq.
  - intros t Ht. rewrite Hidx, decide_True by done. split; [done|].
    simpl. apply bool_decide_eq_true, elem_of_union. right.
    by apply elem_of_singleton.
  - intros t Ht. by rewrite Hidx, decide_False.
  - done.
Qed.

(** C1 (as the code has it). [addSubscriber] of a subscriber object [s]
    returns the next identifier [i], stores [s] under [i], and adds the
    object [s] itself to the reverse-index set of every topic of [s]; the
    set of every other topic is unchanged, and no set ever contains an
    integer. *)
Theorem addSubscriber_reverse_index (w : World) (s : Subscriber) :
  exists w',
    addSubscriber (Some s) w = (Return (Some (nextId (self w))), w') /\
    nextId (self w') = nextId (self w) + 1 /\
    subscribers (self w') !! nextId (self w) = Some s /\
    (forall t, t ∈ getSubscribedTopics s ->
       subscribersFor (self w') t = subscribersFor (self w) t ∪ {[s]} /\
       py_in (PyObj s) (subscribersFor (self w') t) = true) /\
    (forall t, t ∉ getSubscribedTopics s ->
       subscribersFor (self w') t = subscribersFor (self w) t) /\
    (forall t i, py_in (PyInt i) (subscribersFor (self w') t) = false).
Proof. exact (addSubscriber_Some_spec w s). Qed.

(** C5 (as the code has it). [addSubscriber( None )] does not fail: it
    returns [None], and the publisher (subscriber map, reverse index, next
    identifier) and the trace are unchanged. *)
Theorem addSubscriber_None_no_effect (w : World) :
  addSubscriber None w = (Return None, w).
Proof. reflexivity. Qed.

End Registry.

(** ** The fan-out router *)

Section Router.

Import ctpDataPublisher.

Context {datetime price : Type}.
Context (strptime : string -> option datetime).
Context (py_float : string -> option price).

#[local] Abbreviation World := (@World datetime price).
#[local] Abbreviation DataFrame := (@DataFrame datetime price).
#[local] Abbreviation Event := (@Event datetime price).

Lemma for_each_emit {A} (f : A -> Event) (l : list A) :
  forall w : World,
    for_each l (fun a => emit (f a)) w =
      (Return tt, mkWorld (self w) (trace w ++ (f <$> l))).
Proof.
  induction l as [|a l IH]; intros [p tr]; simpl.
  - by rewrite app_nil_r.
  - unfold bind at 1. simpl. rewrite IH. simpl.
    by rewrite <- app_assoc.
Qed.

Lemma elem_of_foldl_union {K} `{Countable V}
    (f : K -> gset V) (l : list K) :
  forall (X : gset V) (v : V),
    v ∈ foldl (fun acc k => acc ∪ f k) X l <->
    v ∈ X \/ exists k, k ∈ l /\ v ∈ f k.
Proof.
  induction l as [|k l IH]; intros X v; simpl.
  - split; [by left|]. intros [?|(k & Hk & _)]; [done|].
    by apply elem_of_nil in Hk.
  - rewrite IH, elem_of_union. split.
    + intros [[?|?]|(k' & Hk' & ?)].
      * by left.
      * right. exists k. split; [apply list_elem_of_here|done].
      * right. exists k'. split; [by apply list_elem_of_further|done].
    + intros [?|(k' & Hk' & ?)]; [by left; left|].
      apply elem_of_cons in Hk' as [->|Hk'].
      * by left; right.
      * right. by exists k'.
Qed.

(** The calls [notifyAll] makes. *)
Lemma notifyAll_spec (w : World) (data : DataFrame) :
  exists calls : list Subscriber,
    notifyAll data w =
      (Return tt,
       mkWorld (self w) (trace w ++ ((fun s => OnData s data) <$> calls))) /\
    NoDup calls /\
    forall s, s ∈ calls <->
      exists secId, secId ∈ index data /\ s ∈ subscribersFor (self w) secId.
Proof.
  set (f := fun secId : string =>
              default (∅ : gset Subscriber)
                (topicsToSubscribers (self w) !! secId)).
  set (keys := elements (list_to_set (index data) : gset string)).
  set (X := foldl (fun acc secId => acc ∪ f secId) ∅ keys).
  exists (elements X). split_and!.
  - unfold notifyAll, bind, read. simpl. fold f. fold keys. fold X.
    case_decide as Hsz.
    + apply for_each_emit.
    + assert (X = ∅) as ->.
      { change (¬ (0 < size X)%nat) in Hsz.
        apply leibniz_equiv, size_empty_iff. lia. }
      rewrite elements_empty. simpl. rewrite app_nil_r. by destruct w.
  - apply NoDup_elements.
  - intros s. rewrite elem_of_elements. unfold X.
    rewrite elem_of_foldl_union. unfold keys, f, subscribersFor. split.
    + intros [H0|(k & Hk & Hs)]; [by apply not_elem_of_empty in H0|].
      exists k. split; [|done].
      by apply elem_of_elements, elem_of_list_to_set in Hk.
    + intros (k & Hk & Hs). right. exists k. split; [|done].
      by apply elem_of_elements, elem_of_list_to_set.
Qed.

(** C7. [notifyAll] calls [onData] with the whole batch once on each
    subscriber object found in the reverse index under some key of the
    batch, and on no other subscriber; the publisher itself is unchanged. *)
Theorem notifyAll_fanout (w : World) (data : DataFrame) :
  exists calls : list Subscriber,
    notifyAll data w =
      (Return tt,
       mkWorld (self w) (trace w ++ ((fun s => OnData s data) <$> calls))) /\
    NoDup calls /\
    forall s, s ∈ calls <->
      exists secId, secId ∈ index data /\ s ∈ subscribersFor (self w) secId.
Proof. exact (notifyAll_spec w data). Qed.

(** C2 (behaviour of the code). A raw message that does not split into
    exactly three comma-separated fields makes the three-target unpacking
    raise [ValueError]: the receive loop ends there, with nothing logged and
    nothing delivered, and the messages after it are never read. *)
Theorem receive_loop_malformed_raises
    (raw : string) (rest : list string) (w : World) :
  length (split "," raw) <> 3%nat ->
  receive_loop strptime py_float (raw :: rest) w = (Raise ValueError, w).
Proof.
  intros Hlen. simpl.
  destruct (split "," raw) as [|a [|b [|c [|d l]]]]; try done.
Qed.

(** The length test of the receive loop never fails, so the loop records no
    warning, whatever it receives. *)
Lemma receive_loop_never_warns (messages : list string) :
  forall (w : World) r w',
    receive_loop strptime py_float messages w = (r, w') ->
    forall raw, LogWarning raw ∈ trace w' -> LogWarning raw ∈ trace w.
Proof.
  induction messages as [|m rest IH]; intros w r w' Hrun raw Hin.
  - by injection Hrun as _ <-.
  - simpl in Hrun.
    destruct (split "," m) as [|a [|b [|c [|d l]]]];
      try (by injection Hrun as _ <-).
    unfold bind at 1 in Hrun. simpl in Hrun.
    destruct (strptime b) as [d|]; [|by injection Hrun as _ <-].
    destruct (py_float c) as [x|]; [|by injection Hrun as _ <-].
    unfold bind at 1 in Hrun. simpl in Hrun.
    destruct (notifyAll_spec w
                [(default a (secIds (self w) !! a), (d, x))])
      as (calls & Hn & _ & _).
    rewrite Hn in Hrun.
    specialize (IH _ _ _ Hrun raw Hin). simpl in IH.
    apply elem_of_app in IH as [?|IH]; [done|].
    apply list_elem_of_fmap in IH as (s & Hs & _). done.
Qed.

End Router.

(** ** Start-up aggregation *)

Section Connect.

Import ctpDataPublisher.

Context {datetime price : Type}.

#[local] Abbreviation World := (@World datetime price).

Lemma ctpTopics_of_returns (t : list string) :
  forall acc,
    (forall x, x ∈ t -> is_raise (ctpUtil.getCtpInstId x) = false) ->
    exists m, ctpTopics_of t acc = Return m.
Proof.
  induction t as [|x t IH]; intros acc Hwf; simpl; [by eexists|].
  pose proof (Hwf x (list_elem_of_here _ _)) as Hx.
  destruct (ctpUtil.getCtpInstId x) as [k|]; [|done].
  apply IH. intros y Hy. by apply Hwf, list_elem_of_further.
Qed.

(** The loop returns, and its result is [None] exactly when it started
    from [None] or met a subscriber without filter; otherwise it is the
    initial set joined with every filter met. *)
Lemma connect_summarise_spec (items : list (Z * Subscriber)) :
  forall (acc : option (gset string)) (w : World),
    topics_well_formed items ->
    exists r w',
      connect_summarise items acc w = (Return r, w') /\
      match r with
      | None =>
          acc = None \/
          exists i s, (i, s) ∈ items /\ getSubscribedDataFields s = None
      | Some F =>
          exists F0, acc = Some F0 /\
            (forall i s, (i, s) ∈ items ->
               getSubscribedDataFields s <> None) /\
            forall x, x ∈ F <->
              x ∈ F0 \/
              exists i s f, (i, s) ∈ items /\
                getSubscribedDataFields s = Some f /\ x ∈ f
      end.
Proof.
  induction items as [|[i s] items IH]; intros acc w Hwf.
  - exists acc, w. split; [done|]. destruct acc as [F0|]; [|by left].
    exists F0. split_and!; [done| |].
    + intros ? ? H. by apply elem_of_nil in H.
    + intros x. split; [by left|].
      intros [?|(? & ? & ? & H & _)]; [done|]. by apply elem_of_nil in H.
  - assert (topics_well_formed items) as Hwf'.
    { intros j s' t Hj Ht. apply (Hwf j s' t); [|done].
      by apply list_elem_of_further. }
    destruct (ctpTopics_of_returns (getSubscribedTopics s) ∅) as [m Hm].
    { intros x Hx. apply (Hwf i s x); [apply list_elem_of_here|done]. }
    simpl. unfold bind at 1, lift. rewrite Hm.
    unfold bind at 1. simpl.
    match goal with
    | |- context [connect_summarise items ?a ?w1] =>
        destruct (IH a w1 Hwf') as (r & w' & Hrun & Hr)
    end.
    exists r, w'. split; [done|].
    destruct r as [F|].
    + destruct Hr as (F1 & Hacc & Hall & HF).
      destruct (getSubscribedDataFields s) as [f|] eqn:Hf; [|done].
      destruct acc as [F0|]; [|done].
      injection Hacc as <-. exists F0. split_and!; [done| |].
      * intros j s' [[= -> ->]|Hj]%elem_of_cons; [by rewrite Hf|eauto].
      * intros x. rewrite HF, elem_of_union, elem_of_list_to_set. split.
        -- intros [[?|Hx]|(j & s' & f' & Hj & Hf' & Hx)].
           ++ by left.
           ++ right. exists i, s, f.
              split_and!; [apply list_elem_of_here|done..].
           ++ right. exists j, s', f'.
              split_and!; [by apply list_elem_of_further|done..].
        -- intros [?|(j & s' & f' & Hj & Hf' & Hx)]; [by left; left|].
           apply elem_of_cons in Hj as [[= -> ->]|Hj].
           ++ left; right. congruence.
           ++ right. by exists j, s', f'.
    + destruct Hr as [Hacc|(j & s' & Hj & Hnone)].
      * destruct (getSubscribedDataFields s) as [f|] eqn:Hf.
        -- destruct acc as [F0|]; [done|by left].
        -- right. exists i, s. split; [apply list_elem_of_here|done].
      * right. exists j, s'. split; [by apply list_elem_of_further|done].
Qed.

(** C8 (as the code has it). When every topic has a native identifier, the
    summarising loop of [connect] returns; its field aggregate is ALL
    ([None]) if and only if some subscriber has no filter
    ([getSubscribedDataFields] is [None]), and otherwise it is the union of
    the subscribers' filters, an empty filter contributing nothing. The
    aggregate is the same in whatever order the subscribers are visited. *)
Theorem connect_summarise_fields
    (items items' : list (Z * Subscriber)) (w : World) :
  items ≡ₚ items' ->
  topics_well_formed items ->
  exists fields w1 w2,
    connect_summarise items (Some ∅) w = (Return fields, w1) /\
    connect_summarise items' (Some ∅) w = (Return fields, w2) /\
    (fields = None <->
       exists i s, (i, s) ∈ items /\ getSubscribedDataFields s = None) /\
    (forall F, fields = Some F ->
       forall x, x ∈ F <->
         exists i s f, (i, s) ∈ items /\
           getSubscribedDataFields s = Some f /\ x ∈ f).
Proof.
  intros Hperm Hwf.
  assert (topics_well_formed items') as Hwf'.
  { intros i s t Hi. apply (Hwf i s t). by rewrite Hperm. }
  destruct (connect_summarise_spec items (Some ∅) w Hwf)
    as (r & w1 & Hrun & Hr).
  destruct (connect_summarise_spec items' (Some ∅) w Hwf')
    as (r' & w2 & Hrun' & Hr').
  assert (r' = r) as ->.
  { destruct r as [F|], r' as [F'|].
    - destruct Hr as (? & [= <-] & _ & HF).
      destruct Hr' as (? & [= <-] & _ & HF').
      f_equal. apply set_eq. intros x. rewrite HF, HF'.
      by setoid_rewrite Hperm.
    - destruct Hr as (_ & _ & Hall & _).
      destruct Hr' as [?|(i & s & Hi & Hnone)]; [done|].
      rewrite <- Hperm in Hi. by destruct (Hall i s Hi).
    - destruct Hr' as (_ & _ & Hall & _).
      destruct Hr as [?|(i & s & Hi & Hnone)]; [done|].
      rewrite Hperm in Hi. by destruct (Hall i s Hi).
    - done. }
  exists r, w1, w2. split_and!; [done..| |].
  - destruct r as [F|].
    + destruct Hr as (_ & _ & Hall & _). split; [done|].
      intros (i & s & Hi & Hnone). by destruct (Hall i s Hi).
    + destruct Hr as [?|?]; done.
  - intros F ->. destruct Hr as (? & [= <-] & _ & HF).
    intros x. rewrite HF. split; [|by right].
    intros [H0|?]; [|done]. by apply not_elem_of_empty in H0.
Qed.

End Connect.

(** ** The order lifecycle callbacks and status query *)

Section Lifecycle.

Import ctpExecutionEngine.

Lemma deliver_unchanged (callbacks : list OrderReturn) (w : World) :
  deliver callbacks w = (Return tt, w).
Proof.
  unfold deliver. induction callbacks as [|cb cbs IH]; [done|].
  simpl. unfold bind at 1. simpl. exact IH.
Qed.

(** C3 (as the code has it). [_onOrderReturn] applies no callback, whatever
    its sequence number: every callback, fresh, duplicate or stale, returns
    and leaves the engine and the trace unchanged. Hence delivering the
    callbacks in any arrival order yields the same final state as
    delivering them in increasing [seqNo] order, namely the state before. *)
Theorem onOrderReturn_any_arrival_order
    (callbacks arrival : list OrderReturn) (w : World) :
  callbacks ≡ₚ arrival ->
  (forall args, args ∈ callbacks -> _onOrderReturn args w = (Return tt, w)) /\
  deliver arrival w = deliver (by_seqNo callbacks) w /\
  deliver arrival w = (Return tt, w).
Proof.
  intros _. split_and!; [done|..].
  - by rewrite !deliver_unchanged.
  - apply deliver_unchanged.
Qed.

(** C6 (as the code has it). [queryStatus] never fails: for an order
    identifier the engine holds no record of, it returns [None] and changes
    nothing. *)
Theorem queryStatus_untracked (orderId : ctpOrder.CTPOrderId) (w : World) :
  executedOrders (self w) !! ctpOrder.oid_orderId orderId = None ->
  queryStatus orderId w = (Return None, w).
Proof. done. Qed.

(** [placeOrder] records nothing in [executedOrders]. *)
Lemma placeOrder_executedOrders (order : ctpUtil.Order) (w : World) :
  executedOrders (self (placeOrder order w).2) = executedOrders (self w).
Proof.
  unfold placeOrder, bind, read, update, modify, lift, emit. simpl.
  by destruct (ctpUtil.convertToCtpOrder order).
Qed.

End Lifecycle.

(** ** Concrete runs *)

Section Runs.

Import Scenarios.

#[local] Open Scope list_scope.

Lemma only_element {A} (a : A) (l : list A) :
  NoDup l -> (forall x, x ∈ l <-> x = a) -> l = [a].
Proof.
  intros Hnd Hl. destruct l as [|x l].
  - exfalso. apply (elem_of_nil a). by apply Hl.
  - assert (x = a) as -> by apply Hl, list_elem_of_here.
    f_equal. apply elem_of_nil_inv. intros y Hy.
    apply NoDup_cons in Hnd as [Hx _]. apply Hx.
    assert (y = a) as -> by apply Hl, list_elem_of_further, Hy.
    exact Hy.
Qed.

(** C1, counterexample. On a fresh publisher, [addSubscriber] of A returns
    identifier 1; the reverse-index set of A's topic then holds the object
    A, and not the integer 1. *)
Lemma addSubscriber_index_holds_object_not_id :
  exists w',
    ctpDataPublisher.addSubscriber (Some subscriberA) publisher0 =
      (Return (Some 1), w') /\
    ctpDataPublisher.subscribersFor (ctpDataPublisher.self w') "rb1910.XSHG"
      = {[ subscriberA ]} /\
    ctpDataPublisher.py_in (ctpDataPublisher.PyInt 1)
      (ctpDataPublisher.subscribersFor (ctpDataPublisher.self w')
         "rb1910.XSHG") = false.
Proof.
  destruct (addSubscriber_Some_spec publisher0 subscriberA)
    as (w' & Hrun & _ & _ & Hin & _ & Hint).
  exists w'. split_and!.
  - exact Hrun.
  - destruct (Hin "rb1910.XSHG") as [Heq _]; [apply list_elem_of_here|].
    rewrite Heq. unfold ctpDataPublisher.subscribersFor. simpl.
    rewrite lookup_empty. simpl. apply (left_id_L ∅ (∪)).
  - apply Hint.
Qed.

(** C1 at subscriber A on a fresh publisher. *)
Lemma addSubscriber_reverse_index_witness :
  exists w',
    ctpDataPublisher.addSubscriber (Some subscriberA) publisher0 =
      (Return (Some 1), w') /\
    ctpDataPublisher.subscribers (ctpDataPublisher.self w') !! 1 =
      Some subscriberA /\
    subscriberA ∈
      ctpDataPublisher.subscribersFor (ctpDataPublisher.self w')
        "rb1910.XSHG" /\
    ctpDataPublisher.subscribersFor (ctpDataPublisher.self w') "IF1909.CCFX"
      = ∅.
Proof.
  destruct (addSubscriber_reverse_index publisher0 subscriberA)
    as (w' & Hrun & _ & Hsub & Hin & Hout & _).
  exists w'. split_and!; [exact Hrun|exact Hsub| |].
  - destruct (Hin "rb1910.XSHG") as [-> _]; [apply list_elem_of_here|].
    apply elem_of_union. right. by apply elem_of_singleton.
  - rewrite Hout.
    + unfold ctpDataPublisher.subscribersFor. simpl.
      by rewrite lookup_empty.
    + simpl. intros H. by apply list_elem_of_singleton in H.
Defined.

(** C5, counterexample. [addSubscriber( None )] on a fresh publisher
    returns [None]; it raises nothing. *)
Lemma addSubscriber_None_does_not_raise :
  ctpDataPublisher.addSubscriber None publisher0 = (Return None, publisher0)
  /\ ~ exists e,
         (ctpDataPublisher.addSubscriber None publisher0).1 = Raise e.
Proof. split; [reflexivity|]. by intros [e He]. Qed.

(** C2, at the failing input: after the two-field message the loop has
    raised, and the well-formed message behind it is never delivered. *)
Lemma receive_loop_malformed_raises_witness :
  length (split "," "bad,data") <> 3%nat /\
  ctpDataPublisher.receive_loop Some Some
    ["bad,data"; "rb1910,20190102 09:00:01,3500.0"] publisher0
  = (Raise ValueError, publisher0).
Proof.
  assert (length (split "," "bad,data") <> 3%nat) as H by (vm_compute; lia).
  split; [exact H|].
  exact (receive_loop_malformed_raises Some Some "bad,data" _ publisher0 H).
Defined.

(** C7, the scenario: A is registered for [rb1910.XSHG] and B for a
    disjoint topic; a batch keyed by [rb1910.XSHG] reaches A once, whole,
    and does not reach B. *)
Lemma notifyAll_fanout_witness :
  let batch := [("rb1910.XSHG", ("20190102 09:00:01", "3500.0"))] in
  exists w1 w2,
    ctpDataPublisher.addSubscriber (Some subscriberA) publisher0 =
      (Return (Some 1), w1) /\
    ctpDataPublisher.addSubscriber (Some subscriberB) w1 =
      (Return (Some 2), w2) /\
    ctpDataPublisher.notifyAll batch w2 =
      (Return tt,
       ctpDataPublisher.mkWorld (ctpDataPublisher.self w2)
         (ctpDataPublisher.trace w2 ++
            [ctpDataPublisher.OnData subscriberA batch])).
Proof.
  intros batch.
  destruct (addSubscriber_Some_spec publisher0 subscriberA)
    as (w1 & Hrun1 & Hn1 & _ & Hin1 & _ & _).
  destruct (addSubscriber_Some_spec w1 subscriberB)
    as (w2 & Hrun2 & _ & _ & _ & Hout2 & _).
  exists w1, w2. split_and!; [exact Hrun1|by rewrite Hrun2, Hn1|].
  destruct (notifyAll_fanout w2 batch) as (calls & Hrun & Hnodup & Hcalls).
  rewrite Hrun. do 2 f_equal.
  rewrite (only_element subscriberA calls Hnodup); [done|].
  intros s. rewrite Hcalls. unfold batch, ctpDataPublisher.index. simpl.
  assert (ctpDataPublisher.subscribersFor (ctpDataPublisher.self w2)
            "rb1910.XSHG" = {[ subscriberA ]}) as HA.
  { rewrite Hout2.
    - destruct (Hin1 "rb1910.XSHG") as [-> _]; [apply list_elem_of_here|].
      unfold ctpDataPublisher.subscribersFor. simpl.
      rewrite lookup_empty. simpl. apply (left_id_L ∅ (∪)).
    - simpl. intros H. by apply list_elem_of_singleton in H. }
  split.
  - intros (secId & ->%list_elem_of_singleton & Hs).
    rewrite HA in Hs. by apply elem_of_singleton in Hs.
  - intros ->. exists "rb1910.XSHG".
    split; [by apply list_elem_of_singleton|].
    rewrite HA. by apply elem_of_singleton.
Defined.

Ltac concrete_topics_well_formed :=
  let Hi := fresh "Hi" in
  let Ht := fresh "Ht" in
  intros ? ? ? Hi Ht;
  repeat (apply elem_of_cons in Hi as [Hi|Hi]);
  [..|by apply elem_of_nil in Hi];
  injection Hi as -> ->; simpl in Ht;
  apply list_elem_of_singleton in Ht as ->; reflexivity.

(** C8, counterexample. C has an empty filter and B wants the price only:
    the aggregate is the set holding the price field, not ALL. *)
Lemma connect_summarise_empty_filter_is_not_all :
  ctpDataPublisher.getSubscribedDataFields subscriberC = Some [] /\
  exists w',
    ctpDataPublisher.connect_summarise
      [(1, subscriberC); (2, subscriberB)] (Some ∅) publisher0 =
      (Return (Some {[ "price" ]}), w').
Proof.
  split; [reflexivity|].
  destruct (connect_summarise_spec [(1, subscriberC); (2, subscriberB)]
              (Some ∅) publisher0) as (r & w' & Hrun & Hr).
  { concrete_topics_well_formed. }
  exists w'. rewrite Hrun. do 2 f_equal.
  destruct r as [F|].
  - destruct Hr as (F0 & [= <-] & _ & HF). f_equal.
    apply set_eq. intros x. rewrite HF, elem_of_singleton. split.
    + intros [H0|(i & s & f & Hi & Hf & Hx)].
      { by apply not_elem_of_empty in H0. }
      repeat (apply elem_of_cons in Hi as [Hi|Hi]);
        [..|by apply elem_of_nil in Hi];
        injection Hi as -> ->; injection Hf as <-.
      * by apply elem_of_nil in Hx.
      * by apply list_elem_of_singleton in Hx.
    + intros ->. right. exists 2, subscriberB, ["price"].
      split_and!; [|done|by apply list_elem_of_singleton].
      apply list_elem_of_further, list_elem_of_here.
  - destruct Hr as [?|(i & s & Hi & Hnone)]; [done|].
    repeat (apply elem_of_cons in Hi as [Hi|Hi]);
      [..|by apply elem_of_nil in Hi];
      injection Hi as -> ->; discriminate Hnone.
Qed.

(** C8 at A (no filter) and B (price only), visited in either order. *)
Lemma connect_summarise_fields_witness :
  exists fields w1 w2,
    ctpDataPublisher.connect_summarise
      [(1, subscriberA); (2, subscriberB)] (Some ∅) publisher0 =
      (Return fields, w1) /\
    ctpDataPublisher.connect_summarise
      [(2, subscriberB); (1, subscriberA)] (Some ∅) publisher0 =
      (Return fields, w2) /\
    fields = None.
Proof.
  destruct (connect_summarise_fields
              [(1, subscriberA); (2, subscriberB)]
              [(2, subscriberB); (1, subscriberA)] publisher0)
    as (fields & w1 & w2 & H1 & H2 & Hnone & _).
  { apply perm_swap. }
  { concrete_topics_well_formed. }
  exists fields, w1, w2. split_and!; [done..|].
  apply Hnone. exists 1, subscriberA.
  split; [apply list_elem_of_here|reflexivity].
Defined.

(** C3, counterexample. An order is placed on a fresh engine, then its
    callbacks of sequence numbers 5 and 3 arrive. The first one is fresh
    (nothing was applied before), yet it is not applied: the engine is
    unchanged and holds no order record, so none with the status carried by
    the callback. *)
Lemma onOrderReturn_fresh_callback_not_applied :
  let placed := ctpExecutionEngine.placeOrder market_buy_100 engine0 in
  placed.1 = Return (ctpOrder.mkCTPOrderId "rb1910.XSHG" "S" 1) /\
  ctpExecutionEngine.deliver [return_seq5; return_seq3] placed.2 =
    (Return tt, placed.2) /\
  ctpExecutionEngine.executedOrders (ctpExecutionEngine.self placed.2) = ∅ /\
  ~ ctpExecutionEngine.reflects
      (ctpExecutionEngine.self
         (ctpExecutionEngine.deliver [return_seq5; return_seq3] placed.2).2)
      return_seq5.
Proof.
  split_and!; [reflexivity..|].
  intros (k & st & Hk & _). simpl in Hk. by rewrite lookup_empty in Hk.
Qed.

(** C3 at the callbacks 5 and 3 arriving as 3 then 5. *)
Lemma onOrderReturn_any_arrival_order_witness :
  ctpExecutionEngine.deliver [return_seq3; return_seq5] engine0 =
    ctpExecutionEngine.deliver
      (ctpExecutionEngine.by_seqNo [return_seq5; return_seq3]) engine0 /\
  ctpExecutionEngine.deliver [return_seq3; return_seq5] engine0 =
    (Return tt, engine0).
Proof.
  destruct (onOrderReturn_any_arrival_order
              [return_seq5; return_seq3] [return_seq3; return_seq5] engine0)
    as (_ & Hsame & Hfinal); [apply perm_swap|].
  split; [exact Hsame|exact Hfinal].
Defined.

(** C6, counterexample. Order 42 was never submitted to the fresh engine;
    [queryStatus] returns [None] for it and raises nothing. *)
Lemma queryStatus_never_submitted_does_not_raise :
  let orderId := ctpOrder.mkCTPOrderId "rb1910.XSHG" "S" 42 in
  ctpExecutionEngine.executedOrders (ctpExecutionEngine.self engine0)
    !! 42 = None /\
  ~ exists e, (ctpExecutionEngine.queryStatus orderId engine0).1 = Raise e.
Proof. split; [apply lookup_empty|]. by intros [e He]. Qed.

(** C6 at order 42 on the fresh engine. *)
Lemma queryStatus_untracked_witness :
  ctpExecutionEngine.queryStatus
    (ctpOrder.mkCTPOrderId "rb1910.XSHG" "S" 42) engine0 =
    (Return None, engine0).
Proof.
  apply (queryStatus_untracked
           (ctpOrder.mkCTPOrderId "rb1910.XSHG" "S" 42) engine0).
  apply lookup_empty.
Defined.

End Runs.

(** * Further properties *)

(** ** Identifier mapping and order conversion: errors and field mapping *)

Section ConverterEdges.

Import ctpUtil.

Lemma length_two_inv {A} (l : list A) :
  length l = 2%nat -> exists a b, l = [a; b].
Proof. destruct l as [|a [|b [|c l]]]; try done. by exists a, b. Qed.

Lemma getCtpInstId_not_two_fields (secId : string) :
  length (split "." secId) <> 2%nat -> getCtpInstId secId = Raise ValueError.
Proof.
  unfold getCtpInstId. intros H.
  by destruct (split "." secId) as [|a [|b [|c l]]].
Qed.

(** [getCtpInstId] returns exactly on the identifiers with two
    dot-separated fields, and raises [ValueError] on all others: no dot, or
    more than one. *)
Theorem getCtpInstId_raises_iff (secId : string) :
  (length (split "." secId) = 2%nat ->
     exists inst, getCtpInstId secId = Return inst) /\
  (length (split "." secId) <> 2%nat ->
     getCtpInstId secId = Raise ValueError).
Proof.
  split.
  - intros (a & b & H)%length_two_inv.
    exact (getCtpInstId_two_fields secId a b H).
  - apply getCtpInstId_not_two_fields.
Qed.

Lemma getCtpInstId_raises_iff_witness :
  (exists inst, getCtpInstId "rb1910.XSHG" = Return inst) /\
  getCtpInstId "rb1910" = Raise ValueError /\
  getCtpInstId "rb1910.XSHG.x" = Raise ValueError /\
  getCtpInstId "" = Raise ValueError.
Proof.
  split_and!.
  - apply (proj1 (getCtpInstId_raises_iff "rb1910.XSHG")). reflexivity.
  - apply (proj2 (getCtpInstId_raises_iff "rb1910")).
    vm_compute. congruence.
  - apply (proj2 (getCtpInstId_raises_iff "rb1910.XSHG.x")).
    vm_compute. congruence.
  - apply (proj2 (getCtpInstId_raises_iff "")). vm_compute. congruence.
Defined.

Lemma split_nonempty (sep : ascii) (s : string) : split sep s <> [].
Proof.
  destruct s as [|c s]; simpl; [done|].
  destruct (Ascii.eqb c sep); [done|]. by destruct (split sep s).
Qed.

Lemma second_char_substring (s : string) :
  (if Nat.ltb 1 (String.length s) then char_at_1 s else EmptyString)
  = substring 1 1 s.
Proof. destruct s as [|a [|b r]]; simpl; try done. by destruct r. Qed.

(** [getCtpExch] of [SYMBOL.SUFFIX] is the second character of the suffix,
    and the empty string when the suffix has fewer than two characters. *)
Theorem getCtpExch_second_char (symbol suffix : string) :
  has_char "." symbol = false ->
  has_char "." suffix = false ->
  getCtpExch (symbol +:+ "." +:+ suffix) = Return (substring 1 1 suffix).
Proof.
  intros Hsym Hsuf. unfold getCtpExch.
  change (symbol +:+ "." +:+ suffix) with (symbol +:+ String "." suffix).
  rewrite (split_two_fields "." symbol suffix Hsym Hsuf).
  by rewrite second_char_substring.
Qed.

Lemma getCtpExch_second_char_witness :
  getCtpExch "rb1910.XSHG" = Return "S" /\
  getCtpExch "IF1909.CCFX" = Return "C" /\
  getCtpExch "rb1910.X" = Return "" /\
  getCtpExch "rb1910." = Return "".
Proof.
  split_and!.
  - exact (getCtpExch_second_char "rb1910" "XSHG" eq_refl eq_refl).
  - exact (getCtpExch_second_char "IF1909" "CCFX" eq_refl eq_refl).
  - exact (getCtpExch_second_char "rb1910" "X" eq_refl eq_refl).
  - exact (getCtpExch_second_char "rb1910" "" eq_refl eq_refl).
Defined.

(** Without a dot, [getCtpExch] raises [IndexError] (and [getCtpInstId]
    raises [ValueError]). *)
Theorem getCtpExch_no_dot (secId : string) :
  has_char "." secId = false ->
  getCtpExch secId = Raise IndexError /\
  getCtpInstId secId = Raise ValueError.
Proof.
  intros H. unfold getCtpExch, getCtpInstId.
  by rewrite (split_no_sep "." secId H).
Qed.

Lemma getCtpExch_no_dot_witness :
  getCtpExch "rb1910" = Raise IndexError /\
  getCtpInstId "rb1910" = Raise ValueError.
Proof. exact (getCtpExch_no_dot "rb1910" eq_refl). Defined.

(** The two mappers disagree on identifiers with more than two fields:
    [getCtpExch] reads the second field and ignores the rest, while
    [getCtpInstId] raises. *)
Theorem getCtpExch_extra_fields (symbol field rest : string) :
  has_char "." symbol = false ->
  has_char "." field = false ->
  getCtpExch (symbol +:+ "." +:+ field +:+ "." +:+ rest)
    = Return (substring 1 1 field) /\
  getCtpInstId (symbol +:+ "." +:+ field +:+ "." +:+ rest)
    = Raise ValueError.
Proof.
  intros Hsym Hfield. unfold getCtpExch, getCtpInstId.
  change (symbol +:+ "." +:+ field +:+ "." +:+ rest)
    with (symbol +:+ String "." (field +:+ String "." rest)).
  rewrite (split_at_sep "." symbol _ Hsym), (split_at_sep "." field _ Hfield).
  rewrite second_char_substring. split; [done|].
  pose proof (split_nonempty "." rest) as Hne.
  by destruct (split "." rest).
Qed.

Lemma getCtpExch_extra_fields_witness :
  getCtpExch "rb1910.XSHG.old" = Return "S" /\
  getCtpInstId "rb1910.XSHG.old" = Raise ValueError.
Proof.
  exact (getCtpExch_extra_fields "rb1910" "XSHG" "old" eq_refl eq_refl).
Defined.

(** [convertToCtpOrder] raises exactly when the identifier of the order
    does not have two fields, and then always [ValueError]: the
    [IndexError] of [getCtpExch] cannot surface, [getCtpInstId] running
    first. *)
Theorem convertToCtpOrder_raises_iff (o : Order) :
  (length (split "." (secId o)) <> 2%nat ->
     convertToCtpOrder o = Raise ValueError) /\
  (forall e, convertToCtpOrder o = Raise e ->
     e = ValueError /\ length (split "." (secId o)) <> 2%nat).
Proof.
  split.
  - intros H. unfold convertToCtpOrder.
    by rewrite (getCtpInstId_not_two_fields _ H).
  - intros e He.
    destruct (decide (length (split "." (secId o)) = 2%nat)) as [H2|H2].
    + apply length_two_inv in H2 as (a & b & H2).
      destruct (convertToCtpOrder_two_fields o a b H2) as (? & ? & Hc).
      by rewrite Hc in He.
    + split; [|done]. unfold convertToCtpOrder in He.
      rewrite (getCtpInstId_not_two_fields _ H2) in He. congruence.
Qed.

Lemma convertToCtpOrder_raises_iff_witness :
  convertToCtpOrder (mkOrder "rb1910" 1 10 100 1 0 1 1 1 2)
    = Raise ValueError.
Proof.
  apply (proj1 (convertToCtpOrder_raises_iff
                  (mkOrder "rb1910" 1 10 100 1 0 1 1 1 2))).
  vm_compute. congruence.
Defined.

(** The native order of [SYMBOL.SUFFIX]: the instrument follows the case
    rule, the exchange is the second character of the suffix, the volume
    is copied, and the direction is BUY exactly for a BUY order. *)
Theorem convertToCtpOrder_native_fields (o : Order) (symbol suffix : string) :
  secId o = symbol +:+ "." +:+ suffix ->
  has_char "." symbol = false ->
  has_char "." suffix = false ->
  exists c,
    convertToCtpOrder o = Return c /\
    ctpOrder.instId c =
      (if (startswith suffix "XZCE" || startswith suffix "CCFX")%bool
       then upper symbol else lower symbol) /\
    ctpOrder.exch c = substring 1 1 suffix /\
    ctpOrder.volume c = volume o /\
    (ctpOrder.side c = ctpOrder.DIRECTION_BUY <-> side o = BUY o) /\
    (ctpOrder.side c = ctpOrder.DIRECTION_SELL <-> side o <> BUY o).
Proof.
  intros Hid Hsym Hsuf. unfold convertToCtpOrder, getCtpInstId.
  unfold getCtpExch. rewrite Hid.
  change (symbol +:+ "." +:+ suffix) with (symbol +:+ String "." suffix).
  rewrite (split_two_fields "." symbol suffix Hsym Hsuf).
  rewrite second_char_substring.
  destruct (startswith suffix "XZCE" || startswith suffix "CCFX")%bool;
    (eexists; split; [reflexivity|]; simpl; split_and!; try done;
     destruct (Z.eqb_spec (side o) (BUY o)); split; done).
Qed.

Lemma convertToCtpOrder_native_fields_witness :
  exists c,
    convertToCtpOrder (mkOrder "if1909.CCFX" 2 7 100 2 0 1 1 1 2) = Return c /\
    ctpOrder.instId c = "IF1909" /\ ctpOrder.exch c = "C" /\
    ctpOrder.volume c = 7 /\ ctpOrder.side c = ctpOrder.DIRECTION_SELL.
Proof.
  destruct (convertToCtpOrder_native_fields
              (mkOrder "if1909.CCFX" 2 7 100 2 0 1 1 1 2) "if1909" "CCFX"
              eq_refl eq_refl eq_refl)
    as (c & Hc & Hi & He & Hv & _ & Hs).
  exists c. split_and!; [done..|]. by apply Hs.
Defined.

(** An order that is not a MARKET order keeps its price: only MARKET orders
    have their price replaced. *)
Theorem convertToCtpOrder_limit_price_kept (o : Order) (instId exch : string) :
  split "." (secId o) = [instId; exch] ->
  priceType o <> MARKET_ORDER o ->
  exists c, convertToCtpOrder o = Return c /\ ctpOrder.price c = price o.
Proof.
  intros Hid Hlim.
  destruct (convertToCtpOrder_two_fields o _ _ Hid) as (inst & ex & ->).
  eexists; split; [reflexivity|]. simpl.
  by destruct (Z.eqb_spec (priceType o) (MARKET_ORDER o)).
Qed.

Lemma convertToCtpOrder_limit_price_kept_witness :
  exists c,
    convertToCtpOrder Scenarios.limit_buy_100 = Return c /\
    ctpOrder.price c = 100.
Proof.
  apply (convertToCtpOrder_limit_price_kept Scenarios.limit_buy_100
           "IF1909" "CCFX"); [reflexivity|]. vm_compute. congruence.
Defined.



(** The native offset flag is OPEN, CLOSE or CLOSE_TODAY, never another
    flag: CLOSE exactly for an order whose offset is its CLOSE value,
    CLOSE_TODAY exactly for one whose offset is its CLOSE_TODAY value and
    not its CLOSE value, and OPEN for every other offset. *)
Theorem convertToCtpOrder_offset_flag (o : Order) (instId exch : string) :
  split "." (secId o) = [instId; exch] ->
  exists c,
    convertToCtpOrder o = Return c /\
    (ctpOrder.offsetFlag c = ctpOrder.OFFSET_CLOSE <->
       offset o = CLOSE o) /\
    (ctpOrder.offsetFlag c = ctpOrder.OFFSET_CLOSE_TODAY <->
       offset o <> CLOSE o /\ offset o = CLOSE_TODAY o) /\
    (ctpOrder.offsetFlag c = ctpOrder.OFFSET_OPEN <->
       offset o <> CLOSE o /\ offset o <> CLOSE_TODAY o).
Proof.
  intros Hid.
  destruct (convertToCtpOrder_two_fields o _ _ Hid) as (inst & ex & ->).
  eexists; split; [reflexivity|]. simpl.
  unfold ctpOrder.OFFSET_CLOSE, ctpOrder.OFFSET_CLOSE_TODAY,
    ctpOrder.OFFSET_OPEN.
  destruct (Z.eqb_spec (offset o) (CLOSE o));
    destruct (Z.eqb_spec (offset o) (CLOSE_TODAY o));
    split_and!; split; (lia || tauto || (intros [? ?]; lia)).
Qed.

Lemma convertToCtpOrder_offset_flag_witness :
  exists c,
    convertToCtpOrder
      (mkOrder "rb1910.XSHG" 1 10 100 2 7 1 1 1 2) = Return c /\
    ctpOrder.offsetFlag c = ctpOrder.OFFSET_OPEN.
Proof.
  destruct (convertToCtpOrder_offset_flag
              (mkOrder "rb1910.XSHG" 1 10 100 2 7 1 1 1 2) "rb1910" "XSHG"
              eq_refl) as (c & Hc & _ & _ & Hopen).
  exists c. split; [exact Hc|]. apply Hopen. simpl. lia.
Defined.

End ConverterEdges.

(** ** The registry: removal, round trips, and what stays consistent *)

Section RegistryOperations.

Import ctpDataPublisher.

Context {datetime price : Type}.

#[local] Abbreviation World := (@World datetime price).
#[local] Abbreviation DataFrame := (@DataFrame datetime price).

(** The topic loop of [addSubscriber], entry by entry of the index. *)
Lemma add_topics_lookup (subId : Z) (s : Subscriber) (topics : list string) :
  forall w : World,
  exists w',
    for_each topics (add_topic subId s) w = (Return tt, w') /\
    config (self w') = config (self w) /\
    subscribers (self w') = subscribers (self w) /\
    secIds (self w') = secIds (self w) /\
    nextId (self w') = nextId (self w) /\
    forall t,
      topicsToSubscribers (self w') !! t =
        if decide (t ∈ topics)
        then Some (subscribersFor (self w) t ∪ {[s]})
        else topicsToSubscribers (self w) !! t.
Proof.
  induction topics as [|topic topics IH]; intros w.
  - exists w. split_and!; done.
  - set (idx0 := topicsToSubscribers (self w)).
    set (idx1 := if decide (is_Some (idx0 !! topic)) then idx0
                 else <[topic := ∅]> idx0).
    set (w1 := mkWorld
                 (set_topicsToSubscribers
                    (fun _ => <[topic := default ∅ (idx1 !! topic) ∪ {[s]}]>
                                idx1) (self w))
                 (trace w ++ [LogDebugAdd subId topic]) : World).
    assert (add_topic subId s topic w = (Return tt, w1)) as Hstep by done.
    assert (forall t, topicsToSubscribers (self w1) !! t =
              if decide (t = topic)
              then Some (subscribersFor (self w) t ∪ {[s]})
              else idx0 !! t) as Hidx1.
    { intros t. simpl. unfold subscribersFor. fold idx0.
      destruct (decide (t = topic)) as [->|Hne].
      - rewrite lookup_insert_eq. f_equal. unfold idx1.
        case_decide as Hs; [done|].
        rewrite lookup_insert_eq. simpl.
        apply eq_None_not_Some in Hs. by rewrite Hs.
      - rewrite lookup_insert_ne by done. unfold idx1.
        case_decide; [done|]. by rewrite lookup_insert_ne. }
    destruct (IH w1) as (w' & Hrest & Hc & Hs & Hi & Hn & Hidx).
    exists w'. split.
    { simpl. unfold bind at 1. by rewrite Hstep. }
    split_and!; try done.
    intros t. rewrite Hidx. unfold subscribersFor at 1. rewrite Hidx1.
    fold idx0. destruct (decide (t = topic)) as [->|Hne].
    + rewrite (decide_True (P := topic ∈ topic :: topics))
        by apply list_elem_of_here.
      case_decide; [|done]. simpl.
      by rewrite <- (assoc_L (∪)), (idemp_L (∪)).
    + destruct (decide (t ∈ topics)) as [Hin|Hnin].
      * by rewrite decide_True by (by apply list_elem_of_further).
      * rewrite decide_False; [done|]. rewrite elem_of_cons. tauto.
Qed.

(** What [addSubscriber] does to every field of the publisher. *)
Lemma addSubscriber_Some_full (w : World) (s : Subscriber) :
  exists w',
    addSubscriber (Some s) w = (Return (Some (nextId (self w))), w') /\
    config (self w') = config (self w) /\
    secIds (self w') = secIds (self w) /\
    nextId (self w') = nextId (self w) + 1 /\
    subscribers (self w') = <[nextId (self w) := s]> (subscribers (self w)) /\
    forall t,
      topicsToSubscribers (self w') !! t =
        if decide (t ∈ getSubscribedTopics s)
        then Some (subscribersFor (self w) t ∪ {[s]})
        else topicsToSubscribers (self w) !! t.
Proof.
  set (i := nextId (self w)).
  set (w1 := mkWorld
               (set_subscribers <[i := s]>
                  (set_nextId (fun n => n + 1) (self w)))
               (trace w) : World).
  destruct (add_topics_lookup i s (getSubscribedTopics s) w1)
    as (w' & Hloop & Hc & Hs & Hi & Hn & Hidx).
  exists w'. split_and!; try done.
  unfold addSubscriber, bind, read, update, modify. simpl.
  fold i. fold w1. by rewrite Hloop.
Qed.

(** The topic loop of [removeSubscriber], when every topic has an entry. *)
Lemma remove_topics_lookup (subscriberId : Z) (s : Subscriber)
    (topics : list string) :
  forall w : World,
    (forall t, t ∈ topics -> is_Some (topicsToSubscribers (self w) !! t)) ->
    exists w',
      for_each topics (fun topic =>
        do! emit (LogDebugRemove subscriberId topic) in
        discard_from_topic topic s) w = (Return tt, w') /\
      config (self w') = config (self w) /\
      subscribers (self w') = subscribers (self w) /\
      secIds (self w') = secIds (self w) /\
      nextId (self w') = nextId (self w) /\
      forall t,
        topicsToSubscribers (self w') !! t =
          if decide (t ∈ topics)
          then (fun X => X ∖ {[s]}) <$> topicsToSubscribers (self w) !! t
          else topicsToSubscribers (self w) !! t.
Proof.
  induction topics as [|topic topics IH]; intros w Hkeys.
  - exists w. split_and!; done.
  - destruct (Hkeys topic (list_elem_of_here _ _)) as [X HX].
    set (w1 := mkWorld
                 (set_topicsToSubscribers <[topic := X ∖ {[s]}]> (self w))
                 (trace w ++ [LogDebugRemove subscriberId topic]) : World).
    assert ((do! emit (LogDebugRemove subscriberId topic) in
             discard_from_topic topic s) w = (Return tt, w1)) as Hstep.
    { unfold bind at 1, emit, modify. simpl.
      unfold discard_from_topic, bind, read. simpl. by rewrite HX. }
    destruct (IH w1) as (w' & Hrest & Hc & Hs & Hi & Hn & Hidx).
    { intros t Ht. simpl.
      destruct (decide (t = topic)) as [->|Hne].
      - rewrite lookup_insert_eq. eauto.
      - rewrite lookup_insert_ne by done.
        by apply Hkeys, list_elem_of_further. }
    exists w'. split.
    { simpl. unfold bind at 1. rewrite Hstep. exact Hrest. }
    split_and!; try done.
    intros t. rewrite Hidx. simpl.
    destruct (decide (t = topic)) as [->|Hne].
    + rewrite (decide_True (P := topic ∈ topic :: topics))
        by apply list_elem_of_here.
      rewrite lookup_insert_eq, HX. simpl.
      case_decide; [|done]. f_equal.
      apply set_eq. intros x. rewrite !elem_of_difference. tauto.
    + rewrite lookup_insert_ne by done.
      destruct (decide (t ∈ topics)) as [Hin|Hnin].
      * by rewrite decide_True by (by apply list_elem_of_further).
      * rewrite decide_False; [done|]. rewrite elem_of_cons. tauto.
Qed.

(** What [removeSubscriber] does to every field of the publisher. *)
Lemma removeSubscriber_Some_full (w : World) (subscriberId : Z)
    (s : Subscriber) :
  subscribers (self w) !! subscriberId = Some s ->
  (forall t, t ∈ getSubscribedTopics s ->
     is_Some (topicsToSubscribers (self w) !! t)) ->
  exists w',
    removeSubscriber subscriberId w = (Return s, w') /\
    config (self w') = config (self w) /\
    secIds (self w') = secIds (self w) /\
    nextId (self w') = nextId (self w) /\
    subscribers (self w') = delete subscriberId (subscribers (self w)) /\
    forall t,
      topicsToSubscribers (self w') !! t =
        if decide (t ∈ getSubscribedTopics s)
        then (fun X => X ∖ {[s]}) <$> topicsToSubscribers (self w) !! t
        else topicsToSubscribers (self w) !! t.
Proof.
  intros Hreg Hkeys.
  set (w1 := mkWorld (set_subscribers (delete subscriberId) (self w))
               (trace w) : World).
  destruct (remove_topics_lookup subscriberId s (getSubscribedTopics s) w1)
    as (w' & Hloop & Hc & Hs & Hi & Hn & Hidx); [exact Hkeys|].
  exists w'. split_and!; try done.
  unfold removeSubscriber. unfold bind at 1, read. simpl. rewrite Hreg.
  unfold bind at 1, update, modify. simpl. fold w1.
  unfold bind at 1. by rewrite Hloop.
Qed.

Lemma subscribersFor_lookup (p p' : CTPDataPublisher) (t : string) :
  topicsToSubscribers p' !! t = topicsToSubscribers p !! t ->
  subscribersFor p' t = subscribersFor p t.
Proof. unfold subscribersFor. by intros ->. Qed.

(** [removeSubscriber] of a registered identifier whose subscriber's topics
    all have an index entry returns that subscriber, drops the identifier
    from the subscriber map, removes the subscriber object from the set of
    each of its topics and touches no other set; no index entry is deleted
    (a set may be left empty) and the next identifier is unchanged. *)
Theorem removeSubscriber_registered (w : World) (subscriberId : Z)
    (s : Subscriber) :
  subscribers (self w) !! subscriberId = Some s ->
  (forall t, t ∈ getSubscribedTopics s ->
     is_Some (topicsToSubscribers (self w) !! t)) ->
  exists w',
    removeSubscriber subscriberId w = (Return s, w') /\
    subscribers (self w') = delete subscriberId (subscribers (self w)) /\
    nextId (self w') = nextId (self w) /\
    (forall t, t ∈ getSubscribedTopics s ->
       subscribersFor (self w') t = subscribersFor (self w) t ∖ {[s]}) /\
    (forall t, t ∉ getSubscribedTopics s ->
       subscribersFor (self w') t = subscribersFor (self w) t) /\
    (forall t, is_Some (topicsToSubscribers (self w') !! t) <->
               is_Some (topicsToSubscribers (self w) !! t)).
Proof.
  intros Hreg Hkeys.
  destruct (removeSubscriber_Some_full w subscriberId s Hreg Hkeys)
    as (w' & Hrun & _ & _ & Hn & Hs & Hidx).
  exists w'. split_and!; try done.
  - intros t Ht. unfold subscribersFor. rewrite Hidx, decide_True by done.
    destruct (Hkeys t Ht) as [X ->]. done.
  - intros t Ht. apply subscribersFor_lookup.
    by rewrite Hidx, decide_False.
  - intros t. rewrite Hidx. case_decide; [|done].
    by rewrite fmap_is_Some.
Qed.

(** Adding a subscriber under a fresh identifier and removing it again
    returns the subscriber and restores the subscriber map, while the
    identifier stays consumed: the next identifier is one more than before.
    The subscriber object is then in none of the sets of its topics, whose
    entries remain. *)
Theorem addSubscriber_then_remove (w : World) (s : Subscriber) :
  subscribers (self w) !! nextId (self w) = None ->
  exists w1 w2,
    addSubscriber (Some s) w = (Return (Some (nextId (self w))), w1) /\
    removeSubscriber (nextId (self w)) w1 = (Return s, w2) /\
    subscribers (self w2) = subscribers (self w) /\
    nextId (self w2) = nextId (self w) + 1 /\
    (forall t, t ∈ getSubscribedTopics s ->
       subscribersFor (self w2) t = subscribersFor (self w) t ∖ {[s]} /\
       is_Some (topicsToSubscribers (self w2) !! t)) /\
    (forall t, t ∉ getSubscribedTopics s ->
       topicsToSubscribers (self w2) !! t =
         topicsToSubscribers (self w) !! t).
Proof.
  intros Hfresh.
  destruct (addSubscriber_Some_full w s)
    as (w1 & Hadd & _ & _ & Hn1 & Hs1 & Hidx1).
  destruct (removeSubscriber_Some_full w1 (nextId (self w)) s)
    as (w2 & Hrem & _ & _ & Hn2 & Hs2 & Hidx2).
  { rewrite Hs1. apply lookup_insert_eq. }
  { intros t Ht. rewrite Hidx1, decide_True by done. eauto. }
  exists w1, w2. split_and!; try done.
  - rewrite Hs2, Hs1. by apply delete_insert_id.
  - by rewrite Hn2.
  - intros t Ht. unfold subscribersFor at 1.
    rewrite Hidx2, decide_True, Hidx1, decide_True by done. simpl.
    split; [|eauto]. apply set_eq. intros x.
    rewrite !elem_of_difference, elem_of_union. tauto.
  - intros t Ht. by rewrite Hidx2, decide_False, Hidx1, decide_False.
Qed.

(** Once an identifier has been removed, removing it again and notifying
    it both fail with the exception of the unknown subscriber, and change
    nothing. *)
Theorem removeSubscriber_then_unknown (w : World) (subscriberId : Z)
    (s : Subscriber) (data : DataFrame) :
  subscribers (self w) !! subscriberId = Some s ->
  (forall t, t ∈ getSubscribedTopics s ->
     is_Some (topicsToSubscribers (self w) !! t)) ->
  exists w',
    removeSubscriber subscriberId w = (Return s, w') /\
    removeSubscriber subscriberId w' =
      (Raise (PyException "Requested subscriber does not exist."), w') /\
    notify subscriberId data w' =
      (Raise (PyException ("Subscriber with ID " +:+ pretty subscriberId
                           +:+ " does not exist.")), w').
Proof.
  intros Hreg Hkeys.
  destruct (removeSubscriber_Some_full w subscriberId s Hreg Hkeys)
    as (w' & Hrun & _ & _ & _ & Hs & _).
  exists w'. split; [exact Hrun|].
  assert (subscribers (self w') !! subscriberId = None) as Hgone.
  { rewrite Hs. apply lookup_delete_eq. }
  unfold removeSubscriber, notify, bind, read. simpl. by rewrite Hgone.
Qed.

(** A subscriber object registered twice and removed once is still
    registered under its second identifier, but is gone from the set of
    every one of its topics: removal strips the object, not the
    registration. *)
Theorem addSubscriber_twice_remove_once (w : World) (s : Subscriber) :
  exists w1 w2 w3,
    addSubscriber (Some s) w = (Return (Some (nextId (self w))), w1) /\
    addSubscriber (Some s) w1 = (Return (Some (nextId (self w) + 1)), w2) /\
    removeSubscriber (nextId (self w)) w2 = (Return s, w3) /\
    subscribers (self w3) !! (nextId (self w) + 1) = Some s /\
    forall t, t ∈ getSubscribedTopics s -> s ∉ subscribersFor (self w3) t.
Proof.
  destruct (addSubscriber_Some_full w s)
    as (w1 & Hadd1 & _ & _ & Hn1 & Hs1 & Hidx1).
  destruct (addSubscriber_Some_full w1 s)
    as (w2 & Hadd2 & _ & _ & Hn2 & Hs2 & Hidx2).
  destruct (removeSubscriber_Some_full w2 (nextId (self w)) s)
    as (w3 & Hrem & _ & _ & _ & Hs3 & Hidx3).
  { rewrite Hs2, Hs1, Hn1, lookup_insert_ne by lia. apply lookup_insert_eq. }
  { intros t Ht. rewrite Hidx2, decide_True by done. eauto. }
  exists w1, w2, w3. split_and!; try done.
  - by rewrite Hadd2, Hn1.
  - rewrite Hs3, lookup_delete_ne by lia.
    rewrite Hs2, Hn1. apply lookup_insert_eq.
  - intros t Ht. unfold subscribersFor.
    rewrite Hidx3, decide_True, Hidx2, decide_True by done. simpl.
    rewrite elem_of_difference, elem_of_singleton. tauto.
Qed.

(** The identifier returned by [addSubscriber] can be notified at once:
    [notify] then calls [onData] of that subscriber, once. *)
Theorem addSubscriber_then_notify (w : World) (s : Subscriber)
    (data : DataFrame) :
  exists w1,
    addSubscriber (Some s) w = (Return (Some (nextId (self w))), w1) /\
    notify (nextId (self w)) data w1 =
      (Return tt, mkWorld (self w1) (trace w1 ++ [OnData s data])).
Proof.
  destruct (addSubscriber_Some_full w s)
    as (w1 & Hadd & _ & _ & _ & Hs1 & _).
  exists w1. split; [exact Hadd|].
  unfold notify, bind, read. simpl. rewrite Hs1, lookup_insert_eq. done.
Qed.

End RegistryOperations.

Section RegistryRuns.

Import ctpDataPublisher.

Lemma removeSubscriber_registered_witness :
  let w := mkWorld (mkPublisher ∅ {[ 1 := Scenarios.subscriberA ]} ∅
                      {[ "rb1910.XSHG" := {[ Scenarios.subscriberA ]} ]} 2)
             [] : @ctpDataPublisher.World string string in
  exists w',
    removeSubscriber 1 w = (Return Scenarios.subscriberA, w') /\
    subscribers (self w') = ∅ /\
    subscribersFor (self w') "rb1910.XSHG" = ∅ /\
    is_Some (topicsToSubscribers (self w') !! "rb1910.XSHG").
Proof.
  intros w.
  destruct (removeSubscriber_registered w 1 Scenarios.subscriberA)
    as (w' & Hrun & Hs & _ & Hin & _ & Hkeys).
  { apply lookup_singleton_eq. }
  { intros t ->%list_elem_of_singleton. simpl.
    rewrite lookup_singleton_eq. eauto. }
  exists w'. split_and!; [exact Hrun| | |].
  - rewrite Hs. simpl. apply delete_singleton_eq.
  - rewrite Hin by apply list_elem_of_here.
    unfold subscribersFor. simpl. rewrite lookup_singleton_eq. simpl.
    apply set_eq. intros x. rewrite elem_of_difference, elem_of_empty.
    tauto.
  - apply Hkeys. simpl. rewrite lookup_singleton_eq. eauto.
Defined.

Lemma addSubscriber_then_remove_witness :
  exists w1 w2,
    addSubscriber (Some Scenarios.subscriberA) Scenarios.publisher0 =
      (Return (Some 1), w1) /\
    removeSubscriber 1 w1 = (Return Scenarios.subscriberA, w2) /\
    subscribers (self w2) = ∅ /\
    nextId (self w2) = 2.
Proof.
  destruct (addSubscriber_then_remove Scenarios.publisher0
              Scenarios.subscriberA)
    as (w1 & w2 & Hadd & Hrem & Hs & Hn & _); [apply lookup_empty|].
  by exists w1, w2.
Defined.

Lemma removeSubscriber_then_unknown_witness :
  let w := mkWorld (mkPublisher ∅ {[ 7 := Scenarios.subscriberA ]} ∅
                      {[ "rb1910.XSHG" := {[ Scenarios.subscriberA ]} ]} 8)
             [] : @ctpDataPublisher.World string string in
  exists w',
    removeSubscriber 7 w = (Return Scenarios.subscriberA, w') /\
    removeSubscriber 7 w' =
      (Raise (PyException "Requested subscriber does not exist."), w') /\
    notify 7 [] w' =
      (Raise (PyException "Subscriber with ID 7 does not exist."), w').
Proof.
  intros w.
  apply (removeSubscriber_then_unknown w 7 Scenarios.subscriberA []).
  - apply lookup_singleton_eq.
  - intros t ->%list_elem_of_singleton. simpl.
    rewrite lookup_singleton_eq. eauto.
Defined.

End RegistryRuns.

(** ** The receive loop: what it delivers, when it stops *)

Section ReceiveLoop.

Import ctpDataPublisher.

Context {datetime price : Type}.
Context (strptime : string -> option datetime).
Context (py_float : string -> option price).

#[local] Abbreviation World := (@World datetime price).
#[local] Abbreviation DataFrame := (@DataFrame datetime price).
#[local] Abbreviation Event := (@Event datetime price).

Lemma notifyAll_deliveries (w : World) (data : DataFrame) :
  exists calls : list (Subscriber * DataFrame),
    notifyAll data w =
      (Return tt, mkWorld (self w) (trace w ++ (delivery <$> calls))).
Proof.
  destruct (notifyAll_spec w data) as (ss & Hrun & _ & _).
  exists ((fun s => (s, data)) <$> ss). rewrite Hrun. do 2 f_equal.
  by rewrite <- list_fmap_compose.
Qed.

Lemma receive_loop_outcome (messages : list string) :
  forall (w : World) r w',
    receive_loop strptime py_float messages w = (r, w') ->
    self w' = self w /\
    (forall e, r = Raise e -> e = ValueError) /\
    exists calls : list (Subscriber * DataFrame),
      trace w' = (trace w ++ (delivery <$> calls))%list.
Proof.
  assert (forall (w : World) r w',
            raise (A := unit) ValueError w = (r, w') ->
            self w' = self w /\
            (forall e, r = Raise e -> e = ValueError) /\
            exists calls : list (Subscriber * DataFrame),
              trace w' = (trace w ++ (delivery <$> calls))%list) as Hraise.
  { intros w r w' [= <- <-]. split_and!; [done|by intros e [= <-]|].
    exists []. simpl. by rewrite app_nil_r. }
  induction messages as [|m rest IH]; intros w r w' Hrun.
  - injection Hrun as <- <-. split_and!; [done..|].
    exists []. simpl. by rewrite app_nil_r.
  - simpl in Hrun. destruct (split "," m) as [|a [|b [|c [|d l]]]];
      try (by apply Hraise).
    unfold bind at 1 in Hrun. simpl in Hrun.
    destruct (strptime b) as [d|]; [|by apply Hraise].
    destruct (py_float c) as [x|]; [|by apply Hraise].
    unfold bind at 1 in Hrun. simpl in Hrun.
    destruct (notifyAll_deliveries w
                [(default a (secIds (self w) !! a), (d, x))])
      as (calls0 & Hn).
    rewrite Hn in Hrun.
    destruct (IH _ _ _ Hrun) as (Hself & Hexn & calls & Htrace).
    split; [exact Hself|]. split; [exact Hexn|].
    exists (calls0 ++ calls)%list. rewrite Htrace. simpl.
    by rewrite fmap_app, app_assoc.
Qed.

(** The receive loop only reads the publisher: whatever it receives, and
    however it ends, the publisher is as before and the trace has grown by
    [onData] calls only (nothing is logged); and the only exception it
    ends with is [ValueError]. *)
Theorem receive_loop_frame (messages : list string) (w : World) :
  self (receive_loop strptime py_float messages w).2 = self w /\
  (forall e, (receive_loop strptime py_float messages w).1 = Raise e ->
     e = ValueError) /\
  exists calls : list (Subscriber * DataFrame),
    trace (receive_loop strptime py_float messages w).2 =
      (trace w ++ (delivery <$> calls))%list.
Proof.
  destruct (receive_loop strptime py_float messages w) as [r w'] eqn:Hrun.
  exact (receive_loop_outcome messages w r w' Hrun).
Qed.

(** Messages are consumed in order: running the loop on [l1 ++ l2] is
    running it on [l1] and, unless that raised, on [l2] from where [l1]
    left off. *)
Theorem receive_loop_app (l1 l2 : list string) (w : World) :
  receive_loop strptime py_float (l1 ++ l2) w =
    bind (receive_loop strptime py_float l1)
      (fun _ => receive_loop strptime py_float l2) w.
Proof.
  revert w. induction l1 as [|m l1 IH]; intros w; [done|].
  simpl. destruct (split "," m) as [|a [|b [|c [|d l]]]]; try done.
  unfold bind, read. simpl.
  destruct (strptime b) as [d|]; [|done].
  destruct (py_float c) as [x|]; [|done].
  simpl.
  destruct (notifyAll_deliveries w
              [(default a (secIds (self w) !! a), (d, x))])
    as (calls0 & ->).
  rewrite IH. reflexivity.
Qed.


(** A three-field message whose timestamp or price cannot be read ends the
    loop with [ValueError], like a message of another length: nothing is
    delivered and the messages behind it are not read. *)
Theorem receive_loop_unreadable
    (raw a b c : string) (rest : list string) (w : World) :
  split "," raw = [a; b; c] ->
  strptime b = None \/ py_float c = None ->
  receive_loop strptime py_float (raw :: rest) w = (Raise ValueError, w).
Proof.
  intros Hsplit Hbad. simpl. rewrite Hsplit. unfold bind at 1. simpl.
  destruct (strptime b) as [d|]; [|done].
  destruct Hbad as [? | ->]; done.
Qed.

(** Without the key [MQ_SUB_ADDR] in the configuration, [receiveDatafeed]
    raises [KeyError] once it has subscribed the socket to each topic, and
    reads no message. *)
Theorem receiveDatafeed_missing_address
    (topics messages : list string) (w : World) :
  config (self w) !! "MQ_SUB_ADDR" = None ->
  receiveDatafeed strptime py_float topics messages w =
    (Raise KeyError,
     mkWorld (self w) (trace w ++ (SockSubscribe <$> topics))).
Proof.
  intros Hcfg. unfold receiveDatafeed. unfold bind at 1.
  rewrite (for_each_emit SockSubscribe topics w).
  unfold bind, read. simpl. by rewrite Hcfg.
Qed.

End ReceiveLoop.

Section ReceiveRuns.

Import ctpDataPublisher.


Lemma receive_loop_unreadable_witness :
  receive_loop (fun _ => None) Some
    ["rb1910,yesterday,3500.0"; "rb1910,20190102 09:00:01,3500.0"]
    Scenarios.publisher0 = (Raise ValueError, Scenarios.publisher0).
Proof.
  apply (receive_loop_unreadable (fun _ : string => @None string) Some
           "rb1910,yesterday,3500.0" "rb1910" "yesterday" "3500.0").
  - reflexivity.
  - by left.
Defined.

Lemma receiveDatafeed_missing_address_witness :
  receiveDatafeed Some Some ["rb1910"; "IF1909"]
    ["rb1910,20190102 09:00:01,3500.0"] Scenarios.publisher0 =
    (Raise KeyError,
     mkWorld (self Scenarios.publisher0)
       [SockSubscribe "rb1910"; SockSubscribe "IF1909"]).
Proof.
  apply (receiveDatafeed_missing_address Some Some ["rb1910"; "IF1909"]
           ["rb1910,20190102 09:00:01,3500.0"] Scenarios.publisher0).
  apply lookup_empty.
Defined.

End ReceiveRuns.

(** ** Start-up: what [connect] records and when it fails *)

Section ConnectOutcome.

Import ctpDataPublisher.

Context {datetime price : Type}.

#[local] Abbreviation World := (@World datetime price).

Lemma getCtpInstId_only_ValueError (secId : string) (e : exn) :
  ctpUtil.getCtpInstId secId = Raise e -> e = ValueError.
Proof.
  unfold ctpUtil.getCtpInstId.
  destruct (split "." secId) as [|a [|b [|c l]]]; try (by intros [= <-]).
  by destruct (_ || _)%bool.
Qed.

(** The dictionary of native identifiers of a topic list. *)
Lemma ctpTopics_of_outcome (t : list string) :
  forall acc,
    match ctpTopics_of t acc with
    | Raise e =>
        e = ValueError /\
        exists x, x ∈ t /\ is_raise (ctpUtil.getCtpInstId x) = true
    | Return m =>
        (forall x, x ∈ t -> is_raise (ctpUtil.getCtpInstId x) = false) /\
        (forall k v, m !! k = Some v ->
           acc !! k = Some v \/
           (v ∈ t /\ ctpUtil.getCtpInstId v = Return k)) /\
        (forall k, is_Some (acc !! k) -> is_Some (m !! k)) /\
        (forall x, x ∈ t ->
           exists k, ctpUtil.getCtpInstId x = Return k /\ is_Some (m !! k))
    end.
Proof.
  induction t as [|x t IH]; intros acc; simpl.
  - split_and!.
    + intros x H. by apply elem_of_nil in H.
    + intros k v H. by left.
    + done.
    + intros x H. by apply elem_of_nil in H.
  - destruct (ctpUtil.getCtpInstId x) as [k|e] eqn:Hx.
    + specialize (IH (<[k := x]> acc)).
      destruct (ctpTopics_of t (<[k := x]> acc)) as [m|e].
      * destruct IH as (Hwf & Hval & Hkeys & Hcov). split_and!.
        -- intros y [->|Hy]%elem_of_cons; [by rewrite Hx|by apply Hwf].
        -- intros k' v Hv. destruct (Hval k' v Hv) as [Hacc|[Hin Hk]].
           ++ destruct (decide (k = k')) as [->|Hne].
              ** rewrite lookup_insert_eq in Hacc. injection Hacc as <-.
                 right. split; [apply list_elem_of_here|done].
              ** rewrite lookup_insert_ne in Hacc by done. by left.
           ++ right. split; [by apply list_elem_of_further|done].
        -- intros k' Hk'. apply Hkeys.
           destruct (decide (k = k')) as [->|Hne].
           ++ rewrite lookup_insert_eq. eauto.
           ++ by rewrite lookup_insert_ne.
        -- intros y [->|Hy]%elem_of_cons.
           ++ exists k. split; [done|]. apply Hkeys.
              rewrite lookup_insert_eq. eauto.
           ++ by apply Hcov.
      * destruct IH as (-> & y & Hy & Hbad). split; [done|].
        exists y. split; [by apply list_elem_of_further|done].
    + split; [by apply (getCtpInstId_only_ValueError x)|].
      exists x. split; [apply list_elem_of_here|by rewrite Hx].
Qed.

(** The outcome of the summarising loop, whichever it is. *)
Lemma connect_summarise_outcome (items : list (Z * Subscriber)) :
  forall (acc : option (gset string)) (w : World) r w',
    connect_summarise items acc w = (r, w') ->
    (config (self w') = config (self w) /\
     subscribers (self w') = subscribers (self w) /\
     topicsToSubscribers (self w') = topicsToSubscribers (self w) /\
     nextId (self w') = nextId (self w) /\
     trace w' = trace w) /\
    (forall k, is_Some (secIds (self w) !! k) ->
               is_Some (secIds (self w') !! k)) /\
    (forall k v, secIds (self w') !! k = Some v ->
       secIds (self w) !! k = Some v \/
       (ctpUtil.getCtpInstId v = Return k /\
        exists i s, (i, s) ∈ items /\ v ∈ getSubscribedTopics s)) /\
    match r with
    | Raise e =>
        e = ValueError /\
        exists i s t, (i, s) ∈ items /\ t ∈ getSubscribedTopics s /\
          is_raise (ctpUtil.getCtpInstId t) = true
    | Return _ =>
        forall i s t, (i, s) ∈ items -> t ∈ getSubscribedTopics s ->
          exists k v,
            ctpUtil.getCtpInstId t = Return k /\
            secIds (self w') !! k = Some v /\
            ctpUtil.getCtpInstId v = Return k /\
            exists j s', (j, s') ∈ items /\ v ∈ getSubscribedTopics s'
    end.
Proof.
  induction items as [|[i0 s0] items IH]; intros acc w r w' Hrun.
  - injection Hrun as <- <-. split_and!; try done; [by left|].
    intros ? ? ? H. by apply elem_of_nil in H.
  - simpl in Hrun. unfold bind at 1, lift in Hrun.
    pose proof (ctpTopics_of_outcome (getSubscribedTopics s0) ∅) as Hm.
    destruct (ctpTopics_of (getSubscribedTopics s0) ∅) as [m|e].
    + destruct Hm as (_ & Hval & _ & Hcov).
      unfold bind at 1 in Hrun. simpl in Hrun.
      apply IH in Hrun as (Hframe & Hkeys & Hvals & Hr). simpl in *.
      split; [exact Hframe|]. split_and!.
      * intros k Hk. apply Hkeys. destruct Hk as [v Hv].
        destruct (m !! k) as [v'|] eqn:Hmk.
        -- exists v'. by apply lookup_union_Some_l.
        -- exists v. by rewrite lookup_union_r.
      * intros k v Hv. destruct (Hvals k v Hv) as [Hold|(Hk & j & s' & Hj & Ht)].
        -- apply lookup_union_Some_raw in Hold as [Hmk|[_ Hold]]; [|by left].
           destruct (Hval k v Hmk) as [Hemp|[Hin Hk]];
             [by rewrite lookup_empty in Hemp|].
           right. split; [done|]. exists i0, s0.
           split; [apply list_elem_of_here|done].
        -- right. split; [done|]. exists j, s'.
           split; [by apply list_elem_of_further|done].
      * destruct r as [v0|e].
        -- intros i s t [[= -> ->]|Hi]%elem_of_cons Ht.
           ++ destruct (Hcov t Ht) as (k & Hk & [v Hv]).
              destruct (Hkeys k) as [v' Hv'].
              { exists v. by apply lookup_union_Some_l. }
              exists k, v'. split_and!; [done..| |].
              ** destruct (Hvals k v' Hv') as [Hold|[Hgood _]]; [|done].
                 rewrite (lookup_union_Some_l _ _ _ _ Hv) in Hold.
                 injection Hold as <-.
                 destruct (Hval k v Hv) as [Hemp|[_ ?]]; [|done].
                 by rewrite lookup_empty in Hemp.
              ** destruct (Hvals k v' Hv')
                   as [Hold|(_ & j & s' & Hj & Hin)].
                 --- rewrite (lookup_union_Some_l _ _ _ _ Hv) in Hold.
                     injection Hold as <-.
                     destruct (Hval k v Hv) as [Hemp|[Hin _]];
                       [by rewrite lookup_empty in Hemp|].
                     exists i0, s0. split; [apply list_elem_of_here|done].
                 --- exists j, s'.
                     split; [by apply list_elem_of_further|done].
           ++ destruct (Hr i s t Hi Ht)
                as (k & v & Hk & Hv & Hgood & j & s' & Hj & Hin).
              exists k, v. split_and!; [done..|]. exists j, s'.
              split; [by apply list_elem_of_further|done].
        -- destruct Hr as (-> & i & s & t & Hi & Ht & Hbad).
           split; [done|]. exists i, s, t.
           split_and!; [by apply list_elem_of_further|done..].
    + injection Hrun as <- <-. destruct Hm as (-> & x & Hx & Hbad).
      split_and!; try done; [by left|].
      exists i0, s0, x. split_and!; [apply list_elem_of_here|done..].
Qed.

(** The summarising loop of [connect] changes nothing but [secIds]:
    configuration, subscribers, reverse index, next identifier and trace
    are as before, whether it returns or raises; and it never drops a key
    of [secIds]. *)
Theorem connect_summarise_frame
    (items : list (Z * Subscriber)) (acc : option (gset string)) (w : World) :
  let w' := (connect_summarise items acc w).2 in
  config (self w') = config (self w) /\
  subscribers (self w') = subscribers (self w) /\
  topicsToSubscribers (self w') = topicsToSubscribers (self w) /\
  nextId (self w') = nextId (self w) /\
  trace w' = trace w /\
  forall k, is_Some (secIds (self w) !! k) -> is_Some (secIds (self w') !! k).
Proof.
  destruct (connect_summarise items acc w) as [r w'] eqn:Hrun.
  destruct (connect_summarise_outcome items acc w r w' Hrun)
    as ((? & ? & ? & ? & ?) & Hkeys & _). simpl. by split_and!.
Qed.

(** One topic without a native identifier, in any subscriber, makes the
    summarising loop raise [ValueError]. *)
Theorem connect_summarise_malformed
    (items : list (Z * Subscriber)) (acc : option (gset string)) (w : World)
    (i : Z) (s : Subscriber) (t : string) :
  (i, s) ∈ items ->
  t ∈ getSubscribedTopics s ->
  is_raise (ctpUtil.getCtpInstId t) = true ->
  (connect_summarise items acc w).1 = Raise ValueError.
Proof.
  intros Hi Ht Hbad.
  destruct (connect_summarise items acc w) as [r w'] eqn:Hrun.
  destruct (connect_summarise_outcome items acc w r w' Hrun)
    as (_ & _ & _ & Hr).
  destruct r as [v|e]; simpl.
  - destruct (Hr i s t Hi Ht) as (k & ? & Hk & _).
    by rewrite Hk in Hbad.
  - by destruct Hr as [-> _].
Qed.

(** After the summarising loop, the native identifier of every subscribed
    topic is a key of [secIds], mapped to a subscribed topic that has this
    native identifier: the topic itself when no other subscribed topic
    shares the native identifier. *)
Theorem connect_summarise_secIds
    (items : list (Z * Subscriber)) (acc : option (gset string)) (w : World) :
  topics_well_formed items ->
  exists r w',
    connect_summarise items acc w = (Return r, w') /\
    forall i s t, (i, s) ∈ items -> t ∈ getSubscribedTopics s ->
      exists k v,
        ctpUtil.getCtpInstId t = Return k /\
        secIds (self w') !! k = Some v /\
        ctpUtil.getCtpInstId v = Return k /\
        (exists j s', (j, s') ∈ items /\ v ∈ getSubscribedTopics s') /\
        ((forall j s' t', (j, s') ∈ items -> t' ∈ getSubscribedTopics s' ->
            ctpUtil.getCtpInstId t' = Return k -> t' = t) ->
         v = t).
Proof.
  intros Hwf.
  destruct (connect_summarise items acc w) as [r w'] eqn:Hrun.
  destruct (connect_summarise_outcome items acc w r w' Hrun)
    as (_ & _ & _ & Hr).
  destruct r as [v0|e].
  - exists v0, w'. split; [done|]. intros i s t Hi Ht.
    destruct (Hr i s t Hi Ht) as (k & v & Hk & Hv & Hgood & j & s' & Hj & Hin).
    exists k, v. split_and!; [done..|eauto|].
    intros Huniq. by apply (Huniq j s').
  - destruct Hr as (_ & i & s & t & Hi & Ht & Hbad).
    by rewrite (Hwf i s t Hi Ht) in Hbad.
Qed.


(** Whatever its outcome, [connect] leaves subscribers, reverse index and
    next identifier as they were. *)
Lemma connect_registry (w : World) r w' :
  connect w = (r, w') ->
  subscribers (self w') = subscribers (self w) /\
  topicsToSubscribers (self w') = topicsToSubscribers (self w) /\
  nextId (self w') = nextId (self w).
Proof.
  intros Hconnect.
  destruct (connect_summarise (map_to_list (subscribers (self w)))
              (Some ∅) w) as [r1 w1] eqn:Hrun.
  destruct (connect_summarise_outcome _ _ _ _ _ Hrun)
    as ((Hc & Hs & Hi & Hn & Ht) & _).
  unfold connect in Hconnect. unfold bind at 1, read in Hconnect.
  simpl in Hconnect. unfold bind at 1 in Hconnect. rewrite Hrun in Hconnect.
  destruct r1 as [fields|e]; [|by injection Hconnect as <- <-].
  unfold bind, read, emit, modify in Hconnect. simpl in Hconnect.
  destruct (config (self w1) !! "MQ_PUB_ADDR");
    by injection Hconnect as <- <-.
Qed.

End ConnectOutcome.

(** ** What every use of the publisher keeps true *)

Section RegistryInvariant.

Import ctpDataPublisher.

Context {datetime price : Type}.
Context (strptime : string -> option datetime).
Context (py_float : string -> option price).

#[local] Abbreviation World := (@World datetime price).
#[local] Abbreviation DataFrame := (@DataFrame datetime price).
#[local] Abbreviation Call := (@Call datetime price).

Lemma registry_ok_same (p p' : CTPDataPublisher) :
  subscribers p' = subscribers p ->
  topicsToSubscribers p' = topicsToSubscribers p ->
  nextId p' = nextId p ->
  registry_ok p -> registry_ok p'.
Proof.
  unfold registry_ok, subscribersFor. intros -> -> ->. done.
Qed.

Lemma registry_ok_init (cfg : gmap string string) : registry_ok (init cfg).
Proof.
  unfold registry_ok, subscribersFor. simpl. split_and!.
  - lia.
  - intros i s H. by rewrite lookup_empty in H.
  - intros i s t H. by rewrite lookup_empty in H.
  - intros t s H. rewrite lookup_empty in H. by apply not_elem_of_empty in H.
  - intros t s H. rewrite lookup_empty in H. by apply not_elem_of_empty in H.
Qed.

Lemma registry_ok_add (w w' : World) (s : Subscriber) r :
  addSubscriber (Some s) w = (r, w') ->
  registry_ok (self w) -> registry_ok (self w').
Proof.
  intros Hrun (Hpos & Hids & Hkeys & Hown & Hreg).
  destruct (addSubscriber_Some_full w s)
    as (w1 & Hadd & _ & _ & Hn & Hs & Hidx).
  rewrite Hadd in Hrun. injection Hrun as _ <-.
  assert (forall t, subscribersFor (self w1) t =
            if decide (t ∈ getSubscribedTopics s)
            then subscribersFor (self w) t ∪ {[s]}
            else subscribersFor (self w) t) as Hfor.
  { intros t. unfold subscribersFor at 1. rewrite Hidx. by case_decide. }
  unfold registry_ok. rewrite Hn, Hs. split_and!.
  - lia.
  - intros i s0 Hi. destruct (decide (nextId (self w) = i)) as [<-|Hne].
    + lia.
    + rewrite lookup_insert_ne in Hi by done.
      specialize (Hids i s0 Hi). lia.
  - intros i s0 t Hi Ht. rewrite Hidx. case_decide; [eauto|].
    destruct (decide (nextId (self w) = i)) as [<-|Hne].
    + rewrite lookup_insert_eq in Hi. by injection Hi as <-.
    + rewrite lookup_insert_ne in Hi by done. by apply (Hkeys i s0).
  - intros t s0. rewrite Hfor. case_decide; [|by apply Hown].
    intros [? | ->%elem_of_singleton]%elem_of_union; [by apply Hown|done].
  - intros t s0 Hin.
    assert (s0 = s \/ s0 ∈ subscribersFor (self w) t) as [->|Hold].
    { rewrite Hfor in Hin. case_decide; [|by right].
      apply elem_of_union in Hin as [? | ->%elem_of_singleton]; auto. }
    + exists (nextId (self w)). apply lookup_insert_eq.
    + destruct (Hreg t s0 Hold) as [i Hi]. exists i.
      rewrite lookup_insert_ne; [done|].
      specialize (Hids i s0 Hi). lia.
Qed.

Lemma registry_ok_remove (w w' : World) (subscriberId : Z) r :
  removeSubscriber subscriberId w = (r, w') ->
  registry_ok (self w) -> registry_ok (self w').
Proof.
  clear strptime py_float. intros Hrun Hok.
  destruct (subscribers (self w) !! subscriberId) as [s|] eqn:Hs.
  - destruct Hok as (Hpos & Hids & Hkeys & Hown & Hreg).
    destruct (removeSubscriber_Some_full w subscriberId s Hs
                (fun t => Hkeys subscriberId s t Hs))
      as (w1 & Hrem & _ & _ & Hn & Hs1 & Hidx).
    rewrite Hrem in Hrun. injection Hrun as _ <-.
    assert (forall t s0, s0 ∈ subscribersFor (self w1) t ->
              s0 ∈ subscribersFor (self w) t /\
              (t ∈ getSubscribedTopics s -> s0 <> s)) as Hfor.
    { intros t s0. unfold subscribersFor. rewrite Hidx. case_decide.
      - destruct (topicsToSubscribers (self w) !! t) as [X|]; simpl.
        + rewrite elem_of_difference, elem_of_singleton. tauto.
        + intros H0. by apply not_elem_of_empty in H0.
      - tauto. }
    unfold registry_ok. rewrite Hn, Hs1. split_and!.
    + done.
    + intros i s0 [_ Hi]%lookup_delete_Some. by apply (Hids i s0).
    + intros i s0 t [_ Hi]%lookup_delete_Some Ht. rewrite Hidx.
      case_decide; [rewrite fmap_is_Some|]; by apply (Hkeys i s0).
    + intros t s0 Hin. apply Hown. by apply Hfor.
    + intros t s0 Hin. destruct (Hfor t s0 Hin) as [Hold Hne].
      destruct (Hreg t s0 Hold) as [i Hi]. exists i.
      apply lookup_delete_Some. split; [|done]. intros <-.
      rewrite Hs in Hi. injection Hi as <-.
      apply Hne; [|done]. by apply Hown.
  - unfold removeSubscriber, bind, read in Hrun. simpl in Hrun.
    rewrite Hs in Hrun. by injection Hrun as _ <-.
Qed.

Lemma registry_ok_call (c : Call) (w : World) :
  registry_ok (self w) ->
  registry_ok (self (run_call strptime py_float c w)).
Proof.
  intros Hok.
  destruct c as [[s|]|i|i data|data| |topics messages]; unfold run_call.
  - destruct (addSubscriber (Some s) w) as [r w'] eqn:Hrun.
    by apply (registry_ok_add w w' s r).
  - done.
  - destruct (removeSubscriber i w) as [r w'] eqn:Hrun.
    by apply (registry_ok_remove w w' i r).
  - unfold notify, bind, read. simpl.
    by destruct (subscribers (self w) !! i).
  - destruct (notifyAll_spec w data) as (calls & -> & _). done.
  - destruct (connect w) as [r w'] eqn:Hrun.
    destruct (connect_registry w r w' Hrun) as (Hs & Hi & Hn).
    by apply (registry_ok_same (self w)).
  - unfold receiveDatafeed. unfold bind at 1.
    rewrite (for_each_emit SockSubscribe topics w).
    unfold bind at 1, read. simpl.
    destruct (config (self w) !! "MQ_SUB_ADDR") as [addr|]; [|done].
    unfold bind, emit, modify. simpl.
    match goal with
    | |- context [receive_loop _ _ _ ?w1] =>
        destruct (receive_loop strptime py_float messages w1)
          as [r w'] eqn:Hrun;
        destruct (receive_loop_outcome strptime py_float messages w1 r w'
                    Hrun) as (Hself & _)
    end.
    simpl in Hself. simpl. by rewrite Hself.
Qed.

Lemma registry_ok_calls (cs : list Call) :
  forall w : World,
    registry_ok (self w) ->
    registry_ok (self (run_calls strptime py_float cs w)).
Proof.
  induction cs as [|c cs IH]; intros w Hok; [done|].
  simpl. by apply IH, registry_ok_call.
Qed.

(** Every publisher obtained from a new one by any sequence of calls, failed
    ones included, is consistent: identifiers in use lie between 1 and the
    next identifier, so none is ever reused; every topic of a registered
    subscriber has an index entry; and the reverse index lists a
    subscriber object only under its own topics and only while it is
    registered. *)
Theorem registry_ok_reachable
    (cs : list Call) (cfg : gmap string string) (tr : list Event) :
  registry_ok
    (self (run_calls strptime py_float cs (mkWorld (init cfg) tr))).
Proof. apply registry_ok_calls, registry_ok_init. Qed.

(** On a consistent publisher [removeSubscriber] succeeds on every
    registered identifier and leaves the publisher consistent; the only
    exception it can raise is the one of the unknown identifier (never
    [KeyError]). *)
Theorem removeSubscriber_consistent (w : World) (subscriberId : Z) :
  registry_ok (self w) ->
  (forall s, subscribers (self w) !! subscriberId = Some s ->
     exists w', removeSubscriber subscriberId w = (Return s, w') /\
       registry_ok (self w')) /\
  (forall e, (removeSubscriber subscriberId w).1 = Raise e ->
     e = PyException "Requested subscriber does not exist." /\
     subscribers (self w) !! subscriberId = None).
Proof.
  clear strptime py_float. intros Hok. split.
  - intros s Hs.
    destruct (removeSubscriber_Some_full w subscriberId s Hs)
      as (w' & Hrun & _).
    { intros t. destruct Hok as (_ & _ & Hkeys & _).
      by apply (Hkeys subscriberId s). }
    exists w'. split; [done|].
    by apply (registry_ok_remove w w' subscriberId (Return s)).
  - intros e He.
    destruct (subscribers (self w) !! subscriberId) as [s|] eqn:Hs.
    + destruct (removeSubscriber_Some_full w subscriberId s Hs)
        as (w' & Hrun & _).
      { intros t. destruct Hok as (_ & _ & Hkeys & _).
        by apply (Hkeys subscriberId s). }
      by rewrite Hrun in He.
    + unfold removeSubscriber, bind, read in He. simpl in He.
      rewrite Hs in He. by injection He as <-.
Qed.

(** On a consistent publisher the identifier that [addSubscriber] returns
    was not in use: no registered subscriber is replaced, the subscriber
    map grows by one, and the publisher stays consistent. *)
Theorem addSubscriber_fresh_identifier (w : World) (s : Subscriber) :
  registry_ok (self w) ->
  exists w',
    addSubscriber (Some s) w = (Return (Some (nextId (self w))), w') /\
    subscribers (self w) !! nextId (self w) = None /\
    (forall j s0, subscribers (self w) !! j = Some s0 ->
       subscribers (self w') !! j = Some s0) /\
    size (subscribers (self w')) = S (size (subscribers (self w))) /\
    registry_ok (self w').
Proof.
  intros Hok.
  destruct (addSubscriber_Some_full w s)
    as (w' & Hadd & _ & _ & _ & Hs & _).
  assert (subscribers (self w) !! nextId (self w) = None) as Hfresh.
  { destruct (subscribers (self w) !! nextId (self w)) as [s0|] eqn:H0;
      [|done].
    destruct Hok as (_ & Hids & _). specialize (Hids _ _ H0). lia. }
  exists w'. split_and!; [done..| | |].
  - intros j s0 Hj. rewrite Hs, lookup_insert_ne; [done|].
    intros Heq. rewrite <- Heq in Hj. by rewrite Hfresh in Hj.
  - rewrite Hs. by apply map_size_insert_None.
  - by apply (registry_ok_add w w' s (Return (Some (nextId (self w))))).
Qed.


End RegistryInvariant.

Section RegistryInvariantRuns.

Import ctpDataPublisher.

Lemma removeSubscriber_consistent_witness :
  exists w1 w2,
    addSubscriber (Some Scenarios.subscriberA) Scenarios.publisher0 =
      (Return (Some 1), w1) /\
    removeSubscriber 1 w1 = (Return Scenarios.subscriberA, w2) /\
    registry_ok (self w2).
Proof.
  destruct (addSubscriber_Some_full Scenarios.publisher0
              Scenarios.subscriberA) as (w1 & Hadd & _ & _ & _ & Hs & _).
  assert (registry_ok (self w1)) as Hok.
  { apply (registry_ok_add Scenarios.publisher0 w1 Scenarios.subscriberA
             _ Hadd), registry_ok_init. }
  destruct (proj1 (removeSubscriber_consistent w1 1 Hok)
              Scenarios.subscriberA) as (w2 & Hrem & Hok2).
  { rewrite Hs. apply lookup_insert_eq. }
  by exists w1, w2.
Defined.

Lemma addSubscriber_fresh_identifier_witness :
  exists w',
    addSubscriber (Some Scenarios.subscriberB) Scenarios.publisher0 =
      (Return (Some 1), w') /\
    size (subscribers (self w')) = 1%nat /\
    registry_ok (self w').
Proof.
  destruct (addSubscriber_fresh_identifier Scenarios.publisher0
              Scenarios.subscriberB (registry_ok_init ∅))
    as (w' & Hadd & _ & _ & Hsize & Hok).
  by exists w'.
Defined.


End RegistryInvariantRuns.

(** ** The order gateway: correlation identifiers and submissions *)

Section Gateway.

Import ctpExecutionEngine.

(** [placeOrder] on an identifier with two fields submits the converted
    order to the transport under the next identifier, once, and returns an
    order identifier made of the security identifier as given (not the
    native instrument), the native exchange code and that identifier; the
    next identifier moves on by one and nothing else changes. *)
Theorem placeOrder_submits (o : ctpUtil.Order) (instId exch : string)
    (w : World) :
  split "." (ctpUtil.secId o) = [instId; exch] ->
  exists c w',
    ctpUtil.convertToCtpOrder o = Return c /\
    placeOrder o w =
      (Return (ctpOrder.mkCTPOrderId (ctpUtil.secId o) (ctpOrder.exch c)
                 (nextId (self w))), w') /\
    trace w' = (trace w ++ [CtptraderPlaceOrder c (nextId (self w))])%list /\
    nextId (self w') = nextId (self w) + 1 /\
    executedOrders (self w') = executedOrders (self w) /\
    onTradeReturn (self w') = onTradeReturn (self w).
Proof.
  intros Hid.
  destruct (convertToCtpOrder_two_fields o _ _ Hid) as (inst & ex & Hc).
  eexists _, _. split; [exact Hc|].
  unfold placeOrder, bind, read, update, modify, lift, emit. simpl.
  rewrite Hc. simpl. done.
Qed.

Lemma placeOrder_submits_witness :
  exists c w',
    ctpUtil.convertToCtpOrder Scenarios.market_buy_100 = Return c /\
    placeOrder Scenarios.market_buy_100 Scenarios.engine0 =
      (Return (ctpOrder.mkCTPOrderId "rb1910.XSHG" "S" 1), w') /\
    trace w' = [CtptraderPlaceOrder c 1] /\
    ctpOrder.price c = 200 /\
    nextId (self w') = 2.
Proof.
  destruct (placeOrder_submits Scenarios.market_buy_100 "rb1910" "XSHG"
              Scenarios.engine0 eq_refl)
    as (c & w' & Hc & Hrun & Htr & Hn & _).
  exists c, w'. injection Hc as <-. by split_and!.
Defined.

(** [placeOrder] on an identifier without exactly two fields raises
    [ValueError] and submits nothing, but the identifier it had taken is
    consumed: the next identifier has moved on by one. *)
Theorem placeOrder_malformed (o : ctpUtil.Order) (w : World) :
  length (split "." (ctpUtil.secId o)) <> 2%nat ->
  exists w',
    placeOrder o w = (Raise ValueError, w') /\
    trace w' = trace w /\
    nextId (self w') = nextId (self w) + 1 /\
    executedOrders (self w') = executedOrders (self w).
Proof.
  intros Hid.
  assert (ctpUtil.convertToCtpOrder o = Raise ValueError) as Hc.
  { unfold ctpUtil.convertToCtpOrder.
    by rewrite (getCtpInstId_not_two_fields _ Hid). }
  eexists. split.
  - unfold placeOrder, bind, read, update, modify, lift. simpl.
    rewrite Hc. reflexivity.
  - done.
Qed.

Lemma placeOrder_malformed_witness :
  exists w',
    placeOrder (ctpUtil.mkOrder "rb1910" 1 10 100 1 0 1 1 1 2)
      Scenarios.engine0 = (Raise ValueError, w') /\
    trace w' = [] /\
    nextId (self w') = 2.
Proof.
  destruct (placeOrder_malformed
              (ctpUtil.mkOrder "rb1910" 1 10 100 1 0 1 1 1 2)
              Scenarios.engine0) as (w' & Hrun & Htr & Hn & _).
  { vm_compute. congruence. }
  by exists w'.
Defined.

(** One call changes the engine as follows. *)
Lemma run_call_effect (c : Call) (w : World) :
  executedOrders (self (run_call c w)) = executedOrders (self w) /\
  nextId (self (run_call c w)) = nextId (self w) + placed [c] /\
  exists ids,
    submitted_ids (trace (run_call c w)) =
      (submitted_ids (trace w) ++ ids)%list /\
    (ids = [] \/ (ids = [nextId (self w)] /\ placed [c] = 1)).
Proof.
  unfold submitted_ids.
  destruct c; simpl;
    try (split_and!; [done|lia|];
         exists []; split; [|by left];
         rewrite ?omap_app; simpl; by rewrite app_nil_r).
  - unfold placeOrder, bind, read, update, modify, lift, emit. simpl.
    destruct (ctpUtil.convertToCtpOrder order) as [c|e]; simpl.
    + split_and!; [done|lia|]. exists [nextId (self w)].
      split; [by rewrite omap_app|by right].
    + split_and!; [done|lia|]. exists []. split; [|by left].
      by rewrite app_nil_r.
  - unfold _onTradeReturn, bind, read, emit, modify. simpl.
    destruct (onTradeReturn (self w)); simpl;
      (split_and!; [done|lia|]; exists []; split; [|by left];
       rewrite ?omap_app; simpl; by rewrite app_nil_r).
Qed.

Lemma run_calls_effect (lo : Z) (cs : list Call) :
  forall w : World,
    lo <= nextId (self w) ->
    (forall i, i ∈ submitted_ids (trace w) -> lo <= i < nextId (self w)) ->
    NoDup (submitted_ids (trace w)) ->
    executedOrders (self (run_calls cs w)) = executedOrders (self w) /\
    nextId (self (run_calls cs w)) = nextId (self w) + placed cs /\
    (forall i, i ∈ submitted_ids (trace (run_calls cs w)) ->
       lo <= i < nextId (self (run_calls cs w))) /\
    NoDup (submitted_ids (trace (run_calls cs w))).
Proof.
  induction cs as [|c cs IH]; intros w Hlo Hlt Hnd.
  - simpl. split_and!; [done|lia|done..].
  - destruct (run_call_effect c w) as (He & Hn & ids & Hids & Hcase).
    assert (placed (c :: cs) = placed [c] + placed cs) as Hplaced.
    { destruct c; simpl; lia. }
    assert (0 <= placed [c]) as Hpos by (destruct c; simpl; lia).
    destruct (IH (run_call c w)) as (He' & Hn' & Hlt' & Hnd').
    + lia.
    + intros i. rewrite Hids, Hn, elem_of_app.
      intros [Hi|Hi]; [specialize (Hlt i Hi); lia|].
      destruct Hcase as [->|[-> Hone]].
      * by apply elem_of_nil in Hi.
      * apply list_elem_of_singleton in Hi. lia.
    + rewrite Hids. apply NoDup_app. split_and!; [done| |].
      * intros i Hi Hin. destruct Hcase as [->|[-> _]].
        -- by apply elem_of_nil in Hin.
        -- apply list_elem_of_singleton in Hin.
           specialize (Hlt i Hi). lia.
      * destruct Hcase as [->|[-> _]];
          [apply NoDup_nil_2|apply NoDup_singleton].
    + change (run_calls (c :: cs) w) with (run_calls cs (run_call c w)).
      split_and!; [congruence|lia|done..].
Qed.

(** After any sequence of calls on a new engine, failed ones included: the
    engine tracks no order ([executedOrders] is empty); the next
    identifier is 1 plus the number of [placeOrder] calls; and the
    identifiers handed to the transport are distinct, each at least 1 and
    below the next identifier. *)
Theorem engine_reachable (cs : list Call) :
  let w := run_calls cs (mkWorld init []) in
  executedOrders (self w) = ∅ /\
  nextId (self w) = 1 + placed cs /\
  NoDup (submitted_ids (trace w)) /\
  (forall i, i ∈ submitted_ids (trace w) -> 1 <= i < nextId (self w)).
Proof.
  intros w.
  destruct (run_calls_effect 1 cs (mkWorld init []))
    as (He & Hn & Hlt & Hnd).
  { simpl. lia. }
  { intros i Hi. by apply elem_of_nil in Hi. }
  { apply NoDup_nil_2. }
  by split_and!.
Qed.

(** [setCallbacks] replaces all five callbacks at once, so the trade
    callback in force is the last argument of the last [setCallbacks],
    whatever was registered before: [_onTradeReturn] then calls it once
    with its arguments, and does nothing when that argument was [None]. *)
Theorem setCallbacks_then_onTradeReturn
    (a b c d e : option Callback) (args : TradeReturn) (w : World) :
  let w1 := (setCallbacks a b c d e w).2 in
  trace w1 = trace w /\
  executedOrders (self w1) = executedOrders (self w) /\
  nextId (self w1) = nextId (self w) /\
  _onTradeReturn args w1 =
    (Return tt,
     match e with
     | Some f => mkWorld (self w1) (trace w1 ++ [CallTradeReturn f args])
     | None => w1
     end).
Proof. intros w1. split_and!; try done. by destruct e. Qed.

End Gateway.

Section ConnectRuns.

Import ctpDataPublisher.

Ltac solve_topics_well_formed :=
  let Hi := fresh "Hi" in
  let Ht := fresh "Ht" in
  intros ? ? ? Hi Ht;
  repeat (apply elem_of_cons in Hi as [Hi|Hi]);
  [..|by apply elem_of_nil in Hi];
  injection Hi as -> ->; simpl in Ht;
  apply list_elem_of_singleton in Ht as ->; reflexivity.

Lemma connect_summarise_malformed_witness :
  (connect_summarise
     [(1, Scenarios.subscriberA); (2, mkSubscriber 9 ["rb1910"] None)]
     (Some ∅) Scenarios.publisher0).1 = Raise ValueError.
Proof.
  apply (connect_summarise_malformed
           [(1, Scenarios.subscriberA); (2, mkSubscriber 9 ["rb1910"] None)]
           (Some ∅) Scenarios.publisher0 2 (mkSubscriber 9 ["rb1910"] None)
           "rb1910").
  - apply list_elem_of_further, list_elem_of_here.
  - apply list_elem_of_here.
  - reflexivity.
Defined.

Lemma connect_summarise_secIds_witness :
  exists r w',
    connect_summarise
      [(1, Scenarios.subscriberA); (2, Scenarios.subscriberB)]
      (Some ∅) Scenarios.publisher0 = (Return r, w') /\
    secIds (self w') !! "rb1910" = Some "rb1910.XSHG".
Proof.
  destruct (connect_summarise_secIds
              [(1, Scenarios.subscriberA); (2, Scenarios.subscriberB)]
              (Some ∅) Scenarios.publisher0) as (r & w' & Hrun & Hmap).
  { solve_topics_well_formed. }
  exists r, w'. split; [exact Hrun|].
  destruct (Hmap 1 Scenarios.subscriberA "rb1910.XSHG")
    as (k & v & Hk & Hv & _ & _ & Huniq).
  { apply list_elem_of_here. }
  { apply list_elem_of_here. }
  vm_compute in Hk. injection Hk as <-. rewrite Hv. f_equal. apply Huniq.
  intros j s' t' Hj Ht' Hnative.
  repeat (apply elem_of_cons in Hj as [Hj|Hj]);
    [..|by apply elem_of_nil in Hj];
    injection Hj as -> ->; simpl in Ht';
    apply list_elem_of_singleton in Ht' as ->; [done|discriminate Hnative].
Defined.


End ConnectRuns.
